(** * RetinaNet model assembly (keras-retinanet): graph construction, verified

    A shallow embedding of [keras_retinanet/models/retinanet.py] and of
    [create_models] from [keras_retinanet/bin/train.py].

    The Python code builds a Keras computation graph by side effect: every
    layer constructor makes a new layer object, and calling a layer on tensors
    makes a new tensor.  Here a tensor is the term that records how it was
    produced, a layer carries the identity ([uid]) of the Python object, and
    the constructors run in a state-and-exception monad whose state holds the
    next fresh identity. *)

From Stdlib Require Import List String ZArith QArith Lia Bool Arith DecimalString.
Import ListNotations.

Set Warnings "-register-all".

Open Scope string_scope.
Open Scope Z_scope.
Open Scope list_scope.

(* ================================================================== *)
(** ** The fragment of the Keras API that the sources call *)
(* ================================================================== *)

Module Keras.

(** Python exceptions raised while the graph is built. *)
Inductive Exception : Type :=
| IndexError (msg : string)
| ValueError (msg : string)
| TypeError (msg : string)
| AttributeError (msg : string).

Inductive Result (A : Type) : Type :=
| Ok (a : A)
| Raise (e : Exception).
Arguments Ok {A} a.
Arguments Raise {A} e.

(** Interpreter state seen by graph construction: the counter that gives
    every new layer object its identity, what [print] wrote, and which weight
    files were loaded into which model ([load_weights] changes parameter
    values, never the graph). *)
Record State : Type := mkState {
  next_uid : nat;
  stdout : list string;
  loaded_weights : list (nat * string * bool)
}.

Definition M (A : Type) : Type := State -> Result (A * State).

Definition ret {A} (a : A) : M A := fun s => Ok (a, s).

Definition bind {A B} (c : M A) (k : A -> M B) : M B :=
  fun s => match c s with
           | Ok (a, s') => k a s'
           | Raise e => Raise e
           end.

Definition raise {A} (e : Exception) : M A := fun _ => Raise e.

Declare Scope keras_scope.
Delimit Scope keras_scope with keras.
Notation "x <- c ;; k" := (bind c (fun x => k))
  (at level 61, c at next level, right associativity) : keras_scope.
Notation "c ;;; k" := (bind c (fun _ => k))
  (at level 61, right associativity) : keras_scope.
Open Scope keras_scope.

Definition bump (s : State) : State :=
  mkState (S (next_uid s)) (stdout s) (loaded_weights s).

Definition fresh_uid : M nat := fun s => Ok (next_uid s, bump s).

Definition print (line : string) : M unit :=
  fun s => Ok (tt, mkState (next_uid s) (stdout s ++ [line]) (loaded_weights s)).

(** ['...{}'.format(i)] for a non-negative index. *)
Definition str (n : nat) : string := NilEmpty.string_of_uint (Nat.to_uint n).

Definition format (prefix : string) (i : nat) : string := append prefix (str i).

(** [l[i]] on a Python list, for [i >= 0]. *)
Definition list_index {A} (l : list A) (i : nat) : M A :=
  match nth_error l i with
  | Some a => ret a
  | None => raise (IndexError "list index out of range")
  end.

(** [l[-1]]. *)
Definition list_last {A} (l : list A) : M A :=
  match rev l with
  | a :: _ => ret a
  | [] => raise (IndexError "list index out of range")
  end.

(** [for i, x in enumerate(xs): acc = body(i, x, acc)], counting from [i]. *)
Fixpoint for_enumerate {A Acc} (body : nat -> A -> Acc -> M Acc)
    (i : nat) (xs : list A) (acc : Acc) : M Acc :=
  match xs with
  | [] => ret acc
  | x :: xs' => acc' <- body i x acc ;; for_enumerate body (S i) xs' acc'
  end.

(** [[body(i, x) for i, x in enumerate(xs)]], counting from [i]. *)
Fixpoint comprehension_enumerate {A B} (body : nat -> A -> M B)
    (i : nat) (xs : list A) : M (list B) :=
  match xs with
  | [] => ret []
  | x :: xs' =>
      y <- body i x ;;
      ys <- comprehension_enumerate body (S i) xs' ;;
      ret (y :: ys)
  end.

(** [[body(x) for x in xs]]. *)
Fixpoint comprehension {A B} (body : A -> M B) (xs : list A) : M (list B) :=
  match xs with
  | [] => ret []
  | x :: xs' =>
      y <- body x ;;
      ys <- comprehension body xs' ;;
      ret (y :: ys)
  end.

(** Floating point literals of the sources are kept symbolic: a decimal
    literal, or [2 ** e]. *)
Inductive scalar : Type :=
| Float (q : Q)
| Pow2 (e : Q).

Inductive DataFormat : Type := channels_last | channels_first.

Inductive Initializer : Type :=
| glorot_uniform                       (* Keras' default kernel initializer *)
| zeros
| normal (mean stddev : Q)
| PriorProbability (probability : Q).

(** The layer classes constructed by the sources, with the constructor
    arguments they pass.  [activation = None] is Keras' "no activation".
    [CoordinateChannel2D] to [FilterDetections] are the classes of
    [keras_retinanet.layers] (see [Layers] below); [Replicated] stands for
    the merge layers of [multi_gpu_model], [BackboneStage] for the layers of
    a backbone. *)
Inductive layer_class : Type :=
| InputLayer (shape : list (option Z))
| Conv2D (filters kernel_size strides : Z) (padding : string)
         (activation : option string)
         (kernel_initializer bias_initializer : Initializer)
| Activation (fn : string)
| Permute (dims : list Z)
| Reshape (target_shape : list Z)
| Add
| Concatenate (axis : Z)
| CoordinateChannel2D
| UpsampleLike
| Anchors (size stride : Z) (ratios scales : list scalar)
| RegressBoxes
| ClipBoxes
| FilterDetections (nms class_specific_filter : bool) (score_threshold : Q)
                   (max_detections : Z) (nms_threshold : Q)
| Replicated (gpus : Z)
| BackboneStage.

(** A tensor is output number [idx] of layer [l] called on [args]; a
    [keras.models.Model] is itself a layer ([Network]) and can be called. *)
Inductive tensor : Type :=
| Out (l : layer) (args : list tensor) (idx : nat)
with layer : Type :=
| Layer (uid : nat) (name : string) (cls : layer_class)
| Network (uid : nat) (name : string) (inputs outputs : list tensor).

Definition layer_uid (l : layer) : nat :=
  match l with Layer u _ _ | Network u _ _ _ => u end.

Definition layer_name (l : layer) : string :=
  match l with Layer _ n _ | Network _ n _ _ => n end.

Definition producer (t : tensor) : layer := match t with Out l _ _ => l end.
Definition operands (t : tensor) : list tensor := match t with Out _ a _ => a end.

(** Equality tests: Python's [is] on layers and tensors. *)
Definition layer_class_eq_dec (a b : layer_class) : {a = b} + {a <> b}.
Proof. repeat decide equality. Defined.

Definition layer_class_eqb (a b : layer_class) : bool :=
  if layer_class_eq_dec a b then true else false.

Definition list_eqb {A} (eqb : A -> A -> bool) : list A -> list A -> bool :=
  fix go (l1 l2 : list A) : bool :=
    match l1, l2 with
    | [], [] => true
    | x :: r1, y :: r2 => eqb x y && go r1 r2
    | _, _ => false
    end.

Fixpoint tensor_eqb (a b : tensor) {struct a} : bool :=
  match a, b with
  | Out la aa ia, Out lb ab ib =>
      layer_eqb la lb && list_eqb tensor_eqb aa ab && Nat.eqb ia ib
  end
with layer_eqb (a b : layer) {struct a} : bool :=
  match a, b with
  | Layer ua na ca, Layer ub nb cb =>
      Nat.eqb ua ub && String.eqb na nb && layer_class_eqb ca cb
  | Network ua na ia oa, Network ub nb ib ob =>
      Nat.eqb ua ub && String.eqb na nb && list_eqb tensor_eqb ia ib
      && list_eqb tensor_eqb oa ob
  | _, _ => false
  end.

Record Model : Type := mkModel {
  model_uid : nat;
  model_name : string;
  model_inputs : list tensor;
  model_outputs : list tensor
}.

Definition as_layer (m : Model) : layer :=
  Network (model_uid m) (model_name m) (model_inputs m) (model_outputs m).

(** A layer constructor with an explicit [name=]. *)
Definition new_layer (name : string) (cls : layer_class) : M layer :=
  uid <- fresh_uid ;; ret (Layer uid name cls).

(** A layer constructor without [name=]: Keras makes up a unique name from
    the class name and a counter (here the layer's identity). *)
Definition new_layer_auto (prefix : string) (cls : layer_class) : M layer :=
  uid <- fresh_uid ;; ret (Layer uid (append prefix (append "_" (str uid))) cls).

(** [layer(x)] and [layer([x, y, ...])].  Keras' [Concatenate] refuses fewer
    than two inputs; tensor shapes are not part of this model, so the shape
    checks Keras makes on a call are not either. *)
Definition call (l : layer) (args : list tensor) : M tensor :=
  match l with
  | Layer _ _ (Concatenate _) =>
      if (List.length args <? 2)%nat
      then raise (ValueError
        "A `Concatenate` layer should be called on a list of at least 2 inputs")
      else ret (Out l args 0)
  | _ => ret (Out l args 0)
  end.

(** [model(x)]: the model is applied as one layer, with its own weights. *)
Definition call_model (m : Model) (args : list tensor) : M tensor :=
  call (as_layer m) args.

(** [keras.layers.Input(shape=...)]. *)
Definition Input (shape : list (option Z)) : M tensor :=
  l <- new_layer_auto "input" (InputLayer shape) ;; call l [].

(** [keras.models.Model(inputs=..., outputs=..., name=...)]: a new model
    object over the given tensors.  The checks Keras runs on a finished model
    (layer names used once, outputs connected to the inputs) are outside this
    development, as tensor shapes are. *)
Definition new_Model (inputs outputs : list tensor) (name : string) : M Model :=
  uid <- fresh_uid ;; ret (mkModel uid name inputs outputs).

(** Renaming of layer identities through a graph. *)
Fixpoint rename_tensor (f : nat -> nat) (t : tensor) : tensor :=
  match t with
  | Out l args i => Out (rename_layer f l) (map (rename_tensor f) args) i
  end
with rename_layer (f : nat -> nat) (l : layer) : layer :=
  match l with
  | Layer u n c => Layer (f u) n c
  | Network u n i o =>
      Network (f u) n (map (rename_tensor f) i) (map (rename_tensor f) o)
  end.

(** [keras.models.clone_model(model)]: the same architecture with the same
    names, on new layer objects (hence new weights).  Every identity inside
    the model is below the counter, so shifting by the counter makes them
    new. *)
Definition clone_model (m : Model) : M Model :=
  fun s =>
    let base := next_uid s in
    let shift := fun u => (base + u)%nat in
    Ok (mkModel (shift (model_uid m)) (model_name m)
                (map (rename_tensor shift) (model_inputs m))
                (map (rename_tensor shift) (model_outputs m)),
        mkState (base + base) (stdout s) (loaded_weights s)).

(** The tensors of a graph, operands before results; a nested model counts
    as one layer, so its inside is not entered. *)
Fixpoint nodes (t : tensor) : list tensor :=
  match t with
  | Out l args _ => flat_map nodes args ++ [t]
  end.

Definition Model_nodes (m : Model) : list tensor :=
  flat_map nodes (model_outputs m).

(** [model.layers], in the order of [Model_nodes]; a layer that is reached
    along several paths is listed once for each, which does not change what
    a search for the first layer of a given name finds. *)
Definition Model_layers (m : Model) : list layer :=
  map producer (Model_nodes m).

Definition has_name (name : string) (l : layer) : bool :=
  String.eqb (layer_name l) name.

(** [model.get_layer(name)]. *)
Definition get_layer (m : Model) (name : string) : M layer :=
  match find (has_name name) (Model_layers m) with
  | Some l => ret l
  | None => raise (ValueError (append "No such layer: " name))
  end.

(** The calls of layer [l] that are part of model [m] (Keras' inbound nodes
    of the layer), and whether two of them are one call: the layer on the same
    operands. *)
Definition calls_of (m : Model) (l : layer) : list tensor :=
  filter (fun t => Nat.eqb (layer_uid (producer t)) (layer_uid l))
         (Model_nodes m).

Definition same_call (t t' : tensor) : bool :=
  list_eqb tensor_eqb (operands t) (operands t').

Definition no_inbound_nodes (l : layer) : Exception :=
  AttributeError
    (append "Layer " (append (layer_name l) " has no inbound nodes.")).

Definition multiple_inbound_nodes (l : layer) : Exception :=
  AttributeError
    (append "Layer " (append (layer_name l) " has multiple inbound nodes.")).

(** [layer.output] for a layer of model [m]: the output of the one call of
    the layer; Keras refuses when the layer was never called, and when it was
    called more than once. *)
Definition layer_output (m : Model) (l : layer) : M tensor :=
  match calls_of m l with
  | [] => raise (no_inbound_nodes l)
  | t :: others =>
      if forallb (same_call t) others
      then ret (Out (producer t) (operands t) 0)
      else raise (multiple_inbound_nodes l)
  end.

(** Every layer of a graph, nested models entered. *)
Fixpoint deep_layers (t : tensor) : list layer :=
  match t with
  | Out l args _ =>
      flat_map deep_layers args ++
      l :: match l with
           | Network _ _ _ outs => flat_map deep_layers outs
           | Layer _ _ _ => []
           end
  end.

Definition is_coordinate_channel (l : layer) : bool :=
  match l with
  | Layer _ _ CoordinateChannel2D => true
  | _ => false
  end.

End Keras.

(* ================================================================== *)
(** ** keras_retinanet/layers, as far as model assembly uses it *)
(* ================================================================== *)

Module Layers.
Import Keras.

(** Modelled from the spec: the class [layers.Anchors] is not among the
    sources.  By section 4.1 it is a pure function of the shape of the
    feature map it is called on, of the level's size and stride and of the
    ratios and scales, with no failure of its own ("Failure: none expected";
    with empty ratios or scales the output is empty): constructing it adds a
    layer that keeps its arguments and raises nothing. *)
Definition Anchors (size stride : Z) (ratios scales : list scalar)
    (name : string) : M layer :=
  new_layer name (Keras.Anchors size stride ratios scales).

(** Modelled from the spec: the number of boxes that an [Anchors] layer
    returns for each location of the feature map.  By sections 4.1 and 8 a
    feature map of shape [(H, W)] yields [H*W*num_anchors] boxes, with
    [num_anchors = len(ratios) * len(scales)]. *)
Definition Anchors_rows_per_location (ratios scales : list scalar) : Z :=
  Z.of_nat (List.length ratios) * Z.of_nat (List.length scales).

(** Modelled from the spec: the class [layers.UpsampleLike] is not among
    the sources.  By section 4.2 it resizes its first input to the spatial
    shape of its second; constructing it adds a layer and raises nothing. *)
Definition UpsampleLike (name : string) : M layer :=
  new_layer name Keras.UpsampleLike.

(** Modelled from the spec: the class [layers.RegressBoxes] is not among
    the sources.  By section 4.4 it applies regression deltas to anchors, a
    pure transform without parameters; constructing it adds a layer and
    raises nothing. *)
Definition RegressBoxes (name : string) : M layer :=
  new_layer name Keras.RegressBoxes.

(** Modelled from the spec: the class [layers.ClipBoxes] is not among the
    sources.  By section 4.4 it clips boxes to the bounds of the image it is
    given; constructing it adds a layer and raises nothing. *)
Definition ClipBoxes (name : string) : M layer :=
  new_layer name Keras.ClipBoxes.

(** Modelled from the spec: the class [layers.FilterDetections] is not
    among the sources.  By section 4.5 it is configured by the five values
    that [retinanet_bbox] passes; constructing it adds a layer that keeps
    them and raises nothing. *)
Definition FilterDetections (nms class_specific_filter : bool)
    (score_threshold : Q) (max_detections : Z) (nms_threshold : Q)
    (name : string) : M layer :=
  new_layer name
    (Keras.FilterDetections nms class_specific_filter score_threshold
       max_detections nms_threshold).

(** Modelled from the spec: calling [layers.FilterDetections], which is not
    among the sources.  By section 4.5 and the docstring of [retinanet_bbox],
    called on [[boxes, classification] + other] it returns the detections as
    [[boxes, scores, labels, other[0], other[1], ...]]: three tensors and one
    more for each auxiliary input. *)
Definition call_FilterDetections (l : layer) (args : list tensor)
    : M (list tensor) :=
  ret (map (Out l args) (seq 0 (3 + List.length (skipn 2 args)))).

(** Modelled from the spec: the class [coord.CoordinateChannel2D] is not
    among the sources.  By section 4.3 it augments a feature map with its
    spatial coordinates; it is constructed without a name, so Keras names it;
    constructing it adds a layer and raises nothing. *)
Definition CoordinateChannel2D : M layer :=
  new_layer_auto "coordinate_channel2d" Keras.CoordinateChannel2D.

End Layers.

(* ================================================================== *)
(** ** keras_retinanet/models/retinanet.py *)
(* ================================================================== *)

(** Every function takes all its parameters; where the Python caller
    leaves a keyword out, the call here passes the default of the Python
    signature.  [keras.backend.image_data_format()], which the default heads
    read from the Keras configuration, is a parameter of the functions that
    reach it. *)

Module Retinanet.
Import Keras.

(** [[x] * n]. *)
Definition times {A} (x : A) (n : nat) : list A := repeat x n.

Definition default_classification_model (image_data_format : DataFormat)
    (num_classes num_anchors : Z)
    (pyramid_feature_size : Z) (prior_probability : Q)
    (feature_sizes : list Z) (name : string) : M Model :=
  inputs <- match image_data_format with
            | channels_first => Input [Some pyramid_feature_size; None; None]
            | channels_last => Input [None; None; Some pyramid_feature_size]
            end ;;
  outputs <- for_enumerate (fun i fs outputs =>
      l <- new_layer (format "pyramid_classification_" i)
             (Conv2D fs 3 1 "same" (Some "relu")
                     (normal 0 (1#100)) zeros) ;;
      call l [outputs]) 0 feature_sizes inputs ;;
  l <- new_layer "pyramid_classification"
         (Conv2D (num_classes * num_anchors) 3 1 "same" None
                 zeros (PriorProbability prior_probability)) ;;
  outputs <- call l [outputs] ;;
  (* reshape output and apply sigmoid *)
  outputs <- match image_data_format with
             | channels_first =>
                 l <- new_layer "pyramid_classification_permute"
                        (Permute [2; 3; 1]) ;;
                 call l [outputs]
             | channels_last => ret outputs
             end ;;
  l <- new_layer "pyramid_classification_reshape" (Reshape [-1; num_classes]) ;;
  outputs <- call l [outputs] ;;
  l <- new_layer "pyramid_classification_sigmoid" (Activation "sigmoid") ;;
  outputs <- call l [outputs] ;;
  new_Model [inputs] [outputs] name.

Definition default_regression_model (image_data_format : DataFormat)
    (num_anchors : Z) (pyramid_feature_size : Z)
    (feature_sizes : list Z) (name : string) : M Model :=
  inputs <- match image_data_format with
            | channels_first => Input [Some pyramid_feature_size; None; None]
            | channels_last => Input [None; None; Some pyramid_feature_size]
            end ;;
  outputs <- for_enumerate (fun i fs outputs =>
      l <- new_layer (format "pyramid_regression_" i)
             (Conv2D fs 3 1 "same" (Some "relu")
                     (normal 0 (1#100)) zeros) ;;
      call l [outputs]) 0 feature_sizes inputs ;;
  l <- new_layer "pyramid_regression"
         (Conv2D (num_anchors * 4) 3 1 "same" None
                 (normal 0 (1#100)) zeros) ;;
  outputs <- call l [outputs] ;;
  outputs <- match image_data_format with
             | channels_first =>
                 l <- new_layer "pyramid_regression_permute"
                        (Permute [2; 3; 1]) ;;
                 call l [outputs]
             | channels_last => ret outputs
             end ;;
  l <- new_layer "pyramid_regression_reshape" (Reshape [-1; 4]) ;;
  outputs <- call l [outputs] ;;
  new_Model [inputs] [outputs] name.

Definition CommonPFModel (num_anchors : Z) (pyramid_feature_size : Z)
    (feature_sizes : list Z) (name : string) (activation : option string)
    (coordconv : bool) : M Model :=
  (if coordconv then print "USING COORDCONV" else ret tt) ;;;
  inputs <- Input [None; None; Some pyramid_feature_size] ;;
  outputs <- (if coordconv
              then l <- Layers.CoordinateChannel2D ;;
                   call l [inputs]
              else ret inputs) ;;
  outputs <- for_enumerate (fun i fs outputs =>
      l <- new_layer (format "pyramid_joint_" i)
             (Conv2D fs 3 1 "same" activation (normal 0 (1#100)) zeros) ;;
      call l [outputs]) 0 feature_sizes outputs ;;
  new_Model [inputs] [outputs] name.

Definition RegrModel (num_anchors : Z) (pyramid_feature_size : Z)
    (feature_sizes : list Z) (name : string) (coordconv : bool)
    (activation : option string) : M Model :=
  inputs <- Input [None; None; Some pyramid_feature_size] ;;
  outputs <- (if coordconv
              then l <- Layers.CoordinateChannel2D ;;
                   call l [inputs]
              else ret inputs) ;;
  outputs <- for_enumerate (fun i fs outputs =>
      l <- new_layer (format "pyramid_regression_" i)
             (Conv2D fs 3 1 "same" activation (normal 0 (1#100)) zeros) ;;
      call l [outputs]) 0 feature_sizes outputs ;;
  l <- new_layer "pyramid_regression"
         (Conv2D (num_anchors * 4) 3 1 "same" None
                 (normal 0 (1#100)) zeros) ;;
  outputs <- call l [outputs] ;;
  l <- new_layer "pyramid_regression_reshape" (Reshape [-1; 4]) ;;
  outputs <- call l [outputs] ;;
  new_Model [inputs] [outputs] name.

Definition ClassModel (num_classes num_anchors : Z)
    (pyramid_feature_size : Z) (prior_probability : Q)
    (feature_sizes : list Z) (name : string) (activation : option string)
    (final_activation : bool) (coordconv : bool) : M Model :=
  inputs <- Input [None; None; Some pyramid_feature_size] ;;
  outputs <- (if coordconv
              then l <- Layers.CoordinateChannel2D ;;
                   call l [inputs]
              else ret inputs) ;;
  outputs <- for_enumerate (fun i fs outputs =>
      l <- new_layer (format "pyramid_classification_" i)
             (Conv2D fs 3 1 "same" activation (normal 0 (1#100)) zeros) ;;
      call l [outputs]) 0 feature_sizes outputs ;;
  l <- new_layer "pyramid_classification"
         (Conv2D (num_classes * num_anchors) 3 1 "same" None
                 zeros (PriorProbability prior_probability)) ;;
  outputs <- call l [outputs] ;;
  (* reshape output and apply sigmoid *)
  l <- new_layer "pyramid_classification_reshape" (Reshape [-1; num_classes]) ;;
  outputs <- call l [outputs] ;;
  outputs <- (if final_activation
              then l <- new_layer "pyramid_classification_sigmoid"
                          (Activation "sigmoid") ;;
                   call l [outputs]
              else ret outputs) ;;
  new_Model [inputs] [outputs] name.

(** The parameters that define how anchors are generated. *)
Record AnchorParameters : Type := mkAnchorParameters {
  sizes : list Z;
  strides : list Z;
  ratios : list scalar;
  scales : list scalar
}.

Definition AnchorParameters_num_anchors (self : AnchorParameters) : Z :=
  Z.of_nat (List.length (ratios self)) * Z.of_nat (List.length (scales self)).

(** The default anchor parameters. *)
Definition AnchorParameters_default : AnchorParameters :=
  mkAnchorParameters
    [32; 64; 128; 256; 512]
    [8; 16; 32; 64; 128]
    [Float (1#2); Float 1; Float 2]
    [Pow2 0; Pow2 (1#3); Pow2 (2#3)].

Definition joint_submodels (num_classes num_anchors : Z)
    (pyramid_feature_size : Z)
    (common_feature_sizes class_feature_sizes regr_feature_sizes : list Z)
    (coordconv : bool) : M (list (string * Model)) :=
  inputs <- Input [None; None; Some pyramid_feature_size] ;;
  common <- CommonPFModel num_classes 256 common_feature_sizes
              "common_submodel" (Some "relu") coordconv ;;
  common_out <- call_model common [inputs] ;;
  pfs <- list_last common_feature_sizes ;;
  regr <- RegrModel num_anchors pfs regr_feature_sizes
            "regression_submodel" false (Some "relu") ;;
  regr_out <- call_model regr [common_out] ;;
  pfs <- list_last common_feature_sizes ;;
  class <- ClassModel num_classes num_anchors pfs (1#100) class_feature_sizes
             "classification_submodel" (Some "relu") true false ;;
  class_out <- call_model class [common_out] ;;
  regr_model <- new_Model [inputs] [regr_out] "regr_model" ;;
  class_model <- new_Model [inputs] [class_out] "class_model" ;;
  ret [("regression", regr_model); ("classification", class_model)].

Definition default_submodels (image_data_format : DataFormat)
    (num_classes num_anchors : Z)
    (class_feature_sizes regr_feature_sizes : list Z)
    : M (list (string * Model)) :=
  regr <- default_regression_model image_data_format num_anchors 256
            regr_feature_sizes "regression_submodel" ;;
  class <- default_classification_model image_data_format num_classes
             num_anchors 256 (1#100) class_feature_sizes
             "classification_submodel" ;;
  ret [("regression", regr); ("classification", class)].

(** The loop of the unshared branch of [__build_model_pyramid]; [new] is the
    loop's flag, which the body reads and never assigns. *)
Fixpoint __build_model_pyramid_loop (model : Model) (new : bool)
    (features : list tensor) (inputs : list tensor) : M (list tensor) :=
  match features with
  | [] => ret inputs
  | f :: features' =>
      mo <- (if new then ret model else clone_model model) ;;
      out <- call_model mo [f] ;;
      __build_model_pyramid_loop model new features' (inputs ++ [out])
  end.

Definition __build_model_pyramid (name : string) (model : Model)
    (features : list tensor) (share : bool) : M tensor :=
  if share then
    l <- new_layer name (Concatenate 1) ;;
    outs <- comprehension (fun f => call_model model [f]) features ;;
    call l outs
  else
    let inputs := [] in
    let new := true in
    inputs <- __build_model_pyramid_loop model new features inputs ;;
    l <- new_layer name (Concatenate 1) ;;
    call l inputs.

(** [models] is a list of (name, model) pairs, or a string when [RetinaNet]
    was given a [submodels] name it does not know: iterating a string yields
    its characters, none of which unpacks into a pair. *)
Definition _build_pyramid (models : list (string * Model) + string)
    (features : list tensor) (share : bool) : M (list tensor) :=
  match models with
  | inl pairs =>
      comprehension
        (fun nm => __build_model_pyramid (fst nm) (snd nm) features share)
        pairs
  | inr EmptyString => ret []
  | inr _ => raise (ValueError "not enough values to unpack (expected 2, got 1)")
  end.

Definition __build_anchors (anchor_parameters : AnchorParameters)
    (features : list tensor) : M tensor :=
  anchors <- comprehension_enumerate (fun i f =>
      size <- list_index (sizes anchor_parameters) i ;;
      stride <- list_index (strides anchor_parameters) i ;;
      l <- Layers.Anchors size stride (ratios anchor_parameters)
             (scales anchor_parameters) (format "anchors_" i) ;;
      call l [f]) 0 features ;;
  l <- new_layer "anchors" (Concatenate 1) ;;
  call l anchors.

Definition _create_pyramid_features (C3 C4 C5 : tensor) (feature_size : Z)
    : M (list tensor) :=
  let conv name kernel_size strides :=
    new_layer name (Conv2D feature_size kernel_size strides "same" None
                           glorot_uniform zeros) in
  (* upsample C5 to get P5 from the FPN paper *)
  l <- conv "C5_reduced" 1 1 ;; P5 <- call l [C5] ;;
  l <- Layers.UpsampleLike "P5_upsampled" ;; P5_upsampled <- call l [P5; C4] ;;
  l <- conv "P5" 3 1 ;; P5 <- call l [P5] ;;
  (* add P5 elementwise to C4 *)
  l <- conv "C4_reduced" 1 1 ;; P4 <- call l [C4] ;;
  l <- new_layer "P4_merged" Add ;; P4 <- call l [P5_upsampled; P4] ;;
  l <- Layers.UpsampleLike "P4_upsampled" ;; P4_upsampled <- call l [P4; C3] ;;
  l <- conv "P4" 3 1 ;; P4 <- call l [P4] ;;
  (* add P4 elementwise to C3 *)
  l <- conv "C3_reduced" 1 1 ;; P3 <- call l [C3] ;;
  l <- new_layer "P3_merged" Add ;; P3 <- call l [P4_upsampled; P3] ;;
  l <- conv "P3" 3 1 ;; P3 <- call l [P3] ;;
  (* "P6 is obtained via a 3x3 stride-2 conv on C5" *)
  l <- conv "P6" 3 2 ;; P6 <- call l [C5] ;;
  (* "P7 is computed by applying ReLU followed by a 3x3 stride-2 conv on P6" *)
  l <- new_layer "C6_relu" (Activation "relu") ;; P7 <- call l [P6] ;;
  l <- conv "P7" 3 2 ;; P7 <- call l [P7] ;;
  ret [P3; P4; P5; P6; P7].

Definition RetinaNet (image_data_format : DataFormat)
    (inputs : list tensor) (backbone_layers : list tensor)
    (num_classes : Z) (num_anchors : Z)
    (create_pyramid_features :
       option (tensor -> tensor -> tensor -> M (list tensor)))
    (submodels : option string) (name : string) (share_rpn : bool)
    (class_feature_sizes regr_feature_sizes common_feature_sizes : list Z)
    (coordconv : bool) : M Model :=
  submodels <-
    match submodels with
    | None =>
        sm <- default_submodels image_data_format num_classes num_anchors
                class_feature_sizes regr_feature_sizes ;;
        ret (inl sm)
    | Some s =>
        if String.prefix "joint" s then
          sm <- joint_submodels num_classes num_anchors 256
                  common_feature_sizes class_feature_sizes
                  regr_feature_sizes coordconv ;;
          ret (inl sm)
        else ret (inr s)
    end ;;
  match backbone_layers with
  | [C3; C4; C5] =>
      (* compute pyramid features as per https://arxiv.org/abs/1708.02002 *)
      let create_pyramid_features :=
        match create_pyramid_features with
        | None => fun C3 C4 C5 => _create_pyramid_features C3 C4 C5 256
        | Some f => f
        end in
      features <- create_pyramid_features C3 C4 C5 ;;
      (* for all pyramid levels, run available submodels *)
      pyramids <- _build_pyramid submodels features share_rpn ;;
      new_Model inputs pyramids name
  | _ => raise (ValueError "wrong number of values to unpack (expected 3)")
  end.

Definition retinanet := RetinaNet.

(** Keyword arguments forwarded to [RetinaNet]: each keyword is given or
    left out. *)
Record kwargs : Type := mkKwargs {
  kw_inputs : option (list tensor);
  kw_backbone_layers : option (list tensor);
  kw_num_classes : option Z;
  kw_num_anchors : option Z;
  kw_create_pyramid_features :
    option (option (tensor -> tensor -> tensor -> M (list tensor)));
  kw_submodels : option (option string);
  kw_name : option string;
  kw_share_rpn : option bool;
  kw_class_feature_sizes : option (list Z);
  kw_regr_feature_sizes : option (list Z);
  kw_common_feature_sizes : option (list Z);
  kw_coordconv : option bool
}.

Definition no_kwargs : kwargs :=
  mkKwargs None None None None None None None None None None None None.

Definition or_default {A} (given : option A) (default : A) : A :=
  match given with Some a => a | None => default end.

(** [RetinaNet] called with the keywords [kw]: those left out take the defaults of the
    signature of [RetinaNet]; the three without a default are required. *)
Definition RetinaNet_kwargs (image_data_format : DataFormat) (kw : kwargs)
    : M Model :=
  match kw_inputs kw, kw_backbone_layers kw, kw_num_classes kw with
  | Some inputs, Some backbone_layers, Some num_classes =>
      RetinaNet image_data_format inputs backbone_layers num_classes
        (or_default (kw_num_anchors kw) 9)
        (or_default (kw_create_pyramid_features kw) None)
        (or_default (kw_submodels kw) None)
        (or_default (kw_name kw) "retinanet")
        (or_default (kw_share_rpn kw) true)
        (or_default (kw_class_feature_sizes kw) (times 256 4))
        (or_default (kw_regr_feature_sizes kw) (times 256 4))
        (or_default (kw_common_feature_sizes kw) (times 256 4))
        (or_default (kw_coordconv kw) false)
  | _, _, _ =>
      raise (TypeError "RetinaNet() missing required positional arguments")
  end.

Definition with_num_anchors (kw : kwargs) (n : Z) : kwargs :=
  mkKwargs (kw_inputs kw) (kw_backbone_layers kw) (kw_num_classes kw) (Some n)
    (kw_create_pyramid_features kw) (kw_submodels kw) (kw_name kw)
    (kw_share_rpn kw) (kw_class_feature_sizes kw) (kw_regr_feature_sizes kw)
    (kw_common_feature_sizes kw) (kw_coordconv kw).

Definition pyramid_names : list string := ["P3"; "P4"; "P5"; "P6"; "P7"].

Definition retinanet_bbox (image_data_format : DataFormat)
    (model : option Model) (anchor_parameters : AnchorParameters)
    (nms class_specific_filter : bool) (name : string)
    (score_threshold : Q) (max_detections : Z) (nms_threshold : Q)
    (kw : kwargs) : M Model :=
  model <- match model with
           | None =>
               match kw_num_anchors kw with
               | Some _ => raise (TypeError
                   "RetinaNet() got multiple values for keyword argument 'num_anchors'")
               | None =>
                   RetinaNet_kwargs image_data_format
                     (with_num_anchors kw
                        (AnchorParameters_num_anchors anchor_parameters))
               end
           | Some model => ret model
           end ;;
  (* compute the anchors *)
  features <- comprehension (fun p_name =>
                  l <- get_layer model p_name ;; layer_output model l)
                pyramid_names ;;
  anchors <- __build_anchors anchor_parameters features ;;
  (* we expect the anchors, regression and classification values as first
     output *)
  regression <- list_index (model_outputs model) 0 ;;
  classification <- list_index (model_outputs model) 1 ;;
  (* "other" can be any additional output from custom submodels, by default
     this will be [] *)
  let other := skipn 2 (model_outputs model) in
  (* apply predicted regression to anchors *)
  l <- Layers.RegressBoxes "boxes" ;;
  boxes <- call l [anchors; regression] ;;
  l <- Layers.ClipBoxes "clipped_boxes" ;;
  input0 <- list_index (model_inputs model) 0 ;;
  boxes <- call l [input0; boxes] ;;
  (* filter detections (apply NMS / score threshold / select top-k) *)
  l <- Layers.FilterDetections nms class_specific_filter score_threshold
         max_detections nms_threshold "filtered_detections" ;;
  detections <- Layers.call_FilterDetections l
                  ([boxes; classification] ++ other) ;;
  let outputs := detections in
  (* construct the model *)
  new_Model (model_inputs model) outputs name.

End Retinanet.

(* ================================================================== *)
(** ** keras_retinanet/bin/train.py: [create_models] *)
(* ================================================================== *)

Module Train.
Import Keras Retinanet.

(** The backbone modifier handed to [backbone_retinanet]:
    [utils.model.freeze], or none. *)
Inductive Modifier : Type := freeze_model.

(** [model.load_weights(weights, by_name=True, skip_mismatch=...)]. *)
Definition load_weights (model : Model) (weights : string)
    (skip_mismatch : bool) : M unit :=
  fun s => Ok (tt, mkState (next_uid s) (stdout s)
                     (loaded_weights s ++ [(model_uid model, weights, skip_mismatch)])).

Definition model_with_weights (model : Model) (weights : option string)
    (skip_mismatch : bool) : M Model :=
  match weights with
  | Some w => load_weights model w skip_mismatch ;;; ret model
  | None => ret model
  end.

(** [keras.utils.multi_gpu_model(model, gpus=...)]: a new model that runs
    [model], as one layer, on slices of the batch and merges every output
    under the output's own name. *)
Definition multi_gpu_model (model : Model) (gpus : Z) : M Model :=
  merged <- comprehension_enumerate (fun i o =>
      l <- new_layer (layer_name (producer o)) (Replicated gpus) ;;
      call l [Out (as_layer model) (model_inputs model) i])
    0 (model_outputs model) ;;
  new_Model (model_inputs model) merged (model_name model).

(** [model.compile(loss={...}, ...)]: every key of the loss dictionary has
    to name an output of the model. *)
Definition compile (model : Model) (loss : list string) : M unit :=
  if forallb (fun key =>
        existsb (fun o => has_name key (producer o)) (model_outputs model)) loss
  then ret tt
  else raise (ValueError "Unknown entry in loss dictionary")
.

Definition create_models (image_data_format : DataFormat)
    (backbone_retinanet : Z -> option Modifier -> kwargs -> M Model)
    (num_classes : Z) (weights : option string) (multi_gpu : Z)
    (skip_mismatch : bool) (freeze_backbone : bool) (lr : Q)
    (score_threshold : Q) (max_detections : Z) (nms_threshold : Q)
    (alpha gamma : Q) (share_rpn : bool)
    (class_feature_sizes regr_feature_sizes common_feature_sizes : list Z)
    (coordconv : bool) (submodels : option string)
    : M (Model * Model * Model) :=
  let modifier := if freeze_backbone then Some freeze_model else None in
  (* optionally wrap in a parallel model *)
  mt <- (if 1 <? multi_gpu then
           (* built under tf.device('/cpu:0'): a placement, not a change of
              the graph *)
           model <- backbone_retinanet num_classes modifier no_kwargs ;;
           model <- model_with_weights model weights skip_mismatch ;;
           training_model <- multi_gpu_model model multi_gpu ;;
           ret (model, training_model)
         else
           (* this instantiates the model *)
           retinanet <- backbone_retinanet num_classes modifier
             (mkKwargs None None None None None
                (Some submodels) None (Some share_rpn)
                (Some class_feature_sizes) (Some regr_feature_sizes)
                (Some common_feature_sizes) (Some coordconv)) ;;
           model <- model_with_weights retinanet weights skip_mismatch ;;
           let training_model := model in
           ret (model, training_model)) ;;
  let model := fst mt in
  let training_model := snd mt in
  (* make prediction model *)
  prediction_model <- retinanet_bbox image_data_format (Some model)
                        AnchorParameters_default true true "retinanet-bbox"
                        score_threshold max_detections nms_threshold
                        no_kwargs ;;
  (* compile model *)
  compile training_model ["regression"; "classification"] ;;;
  ret (model, training_model, prediction_model).

(** Modelled from the spec: the backbone is external (section 6) and its
    module ([keras_retinanet/models/resnet.py] upstream) is not among the
    sources.  It "must expose three intermediate feature maps C3, C4, C5 at
    decreasing resolution"; it makes the image input, hands the three maps
    to [RetinaNet] and forwards every other keyword it is given.  The
    backbone's own layers are three opaque stages. *)
Definition backbone_retinanet (image_data_format : DataFormat)
    (num_classes : Z) (modifier : option Modifier) (kw : kwargs) : M Model :=
  inputs <- Input [None; None; Some 3] ;;
  l <- new_layer "res3" BackboneStage ;; C3 <- call l [inputs] ;;
  l <- new_layer "res4" BackboneStage ;; C4 <- call l [C3] ;;
  l <- new_layer "res5" BackboneStage ;; C5 <- call l [C4] ;;
  RetinaNet_kwargs image_data_format
    (mkKwargs (Some [inputs]) (Some [C3; C4; C5]) (Some num_classes)
       (kw_num_anchors kw) (kw_create_pyramid_features kw) (kw_submodels kw)
       (kw_name kw) (kw_share_rpn kw) (kw_class_feature_sizes kw)
       (kw_regr_feature_sizes kw) (kw_common_feature_sizes kw)
       (kw_coordconv kw)).

End Train.

Import Keras Retinanet Train.

(* ================================================================== *)
(** ** Reading a constructed graph *)
(* ================================================================== *)

(** The last layers of a prediction head, read off its output tensor from
    the output backwards: an optional activation, the reshape, an optional
    permutation (channels-first data), and the convolution before them. *)
Record tail : Type := mkTail {
  tail_conv : layer_class;
  tail_permute : option (list Z);
  tail_reshape : list Z;
  tail_activation : option string
}.

Definition peel_activation (t : tensor) : option string * tensor :=
  match t with
  | Out (Layer _ _ (Activation fn)) [x] _ => (Some fn, x)
  | _ => (None, t)
  end.

Definition peel_permute (t : tensor) : option (list Z) * tensor :=
  match t with
  | Out (Layer _ _ (Permute dims)) [x] _ => (Some dims, x)
  | _ => (None, t)
  end.

Definition head_tail (out : tensor) : option tail :=
  let (act, t) := peel_activation out in
  match t with
  | Out (Layer _ _ (Reshape shape)) [x] _ =>
      let (perm, y) := peel_permute x in
      match y with
      | Out (Layer _ _ (Conv2D f k s p a ki bi)) [_] _ =>
          Some (mkTail (Conv2D f k s p a ki bi) perm shape act)
      | _ => None
      end
  | _ => None
  end.

(** The same for a head given as a model, and as the layer it becomes once
    called inside another model. *)
Definition model_tail (m : Model) : option tail :=
  match model_outputs m with
  | [out] => head_tail out
  | _ => None
  end.

Definition network_tail (l : layer) : option tail :=
  match l with
  | Network _ _ _ [out] => head_tail out
  | _ => None
  end.

(** The permutation that the default heads insert for channels-first data. *)
Definition permute_for (image_data_format : DataFormat) : option (list Z) :=
  match image_data_format with
  | channels_first => Some [2; 3; 1]
  | channels_last => None
  end.

(** [y] is [x] followed by a chain of convolutions. *)
Inductive conv_stack (x : tensor) : tensor -> Prop :=
| conv_stack_nil : conv_stack x x
| conv_stack_cons y uid name f k st p a ki bi :
    conv_stack x y ->
    conv_stack x (Out (Layer uid name (Conv2D f k st p a ki bi)) [y] 0).

(** How many coordinate-channel layers a graph holds, nested models
    included. *)
Definition coordinate_channels (ts : list tensor) : nat :=
  List.length (filter is_coordinate_channel (flat_map deep_layers ts)).

Definition network_coordinate_channels (l : layer) : nat :=
  match l with
  | Network _ _ _ outs => coordinate_channels outs
  | Layer _ _ _ => 0%nat
  end.

(** One turn of a head's loop: a new convolution called on the running
    tensor. *)
Definition conv_step (body : nat -> Z -> tensor -> M tensor) : Prop :=
  forall i fs x s, exists name f k st p a ki bi,
    body i fs x s =
    Ok (Out (Layer (next_uid s) name (Conv2D f k st p a ki bi)) [x] 0, bump s).

(** What is known of every head once built: its name, its last layers, its
    identity (the last one handed out), and that it holds [coord]
    coordinate-channel layers. *)
Definition built_head (s : State) (r : Result (Model * State))
    (name : string) (tl : tail) (coord : nat) : Prop :=
  exists m s',
    r = Ok (m, s') /\
    model_name m = name /\
    model_tail m = Some tl /\
    coordinate_channels (model_outputs m) = coord /\
    (next_uid s <= model_uid m)%nat /\ next_uid s' = S (model_uid m) /\
    loaded_weights s' = loaded_weights s.

(** The two layers behind the single output of a joint submodel: the branch
    head, and the common trunk it is called on. *)
Definition branch_and_trunk (m : Model) : option (layer * layer) :=
  match model_outputs m with
  | [Out branch [Out trunk _ _] _] => Some (branch, trunk)
  | _ => None
  end.

(** *** What the specification says of the heads *)

(** The last layers of a classification head: a 3x3 same-padding
    convolution with [num_classes * num_anchors] filters, zero kernel,
    prior-probability bias; reshaped to rows of [num_classes]; then the
    activation [act]. *)
Definition classification_tail (num_classes num_anchors : Z) (prior : Q)
    (perm : option (list Z)) (act : option string) : tail :=
  mkTail (Conv2D (num_classes * num_anchors) 3 1 "same" None zeros
                 (PriorProbability prior))
         perm [-1; num_classes] act.

(** The last layers of a regression head: a 3x3 same-padding convolution
    with [4 * num_anchors] filters, reshaped to rows of 4, and nothing
    after. *)
Definition regression_tail (num_anchors : Z) (perm : option (list Z)) : tail :=
  mkTail (Conv2D (4 * num_anchors) 3 1 "same" None (normal 0 (1#100)) zeros)
         perm [-1; 4] None.

(** A builder returns a head with the given last layers. *)
Definition returns_head (r : Result (Model * State)) (tl : tail) : Prop :=
  exists m s', r = Ok (m, s') /\ model_tail m = Some tl.

(** [joint_submodels] returns its two models, each a branch head called on
    the one common trunk; [P] says the rest about the three. *)
Definition returns_joint (r : Result (list (string * Model) * State))
    (P : layer -> layer -> layer -> Prop) : Prop :=
  exists regr_model class_model s' regr class trunk,
    r = Ok ([("regression", regr_model); ("classification", class_model)], s') /\
    branch_and_trunk regr_model = Some (regr, trunk) /\
    branch_and_trunk class_model = Some (class, trunk) /\
    layer_name trunk = "common_submodel" /\
    layer_name regr = "regression_submodel" /\
    layer_name class = "classification_submodel" /\
    P regr class trunk.

(** The classification branch that [joint_submodels] returns ends like a
    classification head with prior 0.01 and a sigmoid. *)
Definition joint_classification_branch (num_classes num_anchors : Z)
    (r : Result (list (string * Model) * State)) : Prop :=
  returns_joint r (fun _ class _ =>
    network_tail class =
    Some (classification_tail num_classes num_anchors (1#100) None
            (Some "sigmoid"))).

(** The branch heads that [joint_submodels] returns hold no
    coordinate-channel layer, and the trunk holds one when [coordconv]. *)
Definition coordconv_only_in_trunk (coordconv : bool)
    (r : Result (list (string * Model) * State)) : Prop :=
  returns_joint r (fun regr class trunk =>
    network_coordinate_channels regr = 0%nat /\
    network_coordinate_channels class = 0%nat /\
    network_coordinate_channels trunk = (if coordconv then 1 else 0)%nat).

(** *** Inputs for the examples: an image input and three backbone stages,
    in a state whose counter is past their identities. *)
Definition example_image : tensor :=
  Out (Layer 0 "image" (InputLayer [None; None; Some 3])) [] 0.
Definition example_C3 : tensor := Out (Layer 1 "res3" BackboneStage) [example_image] 0.
Definition example_C4 : tensor := Out (Layer 2 "res4" BackboneStage) [example_C3] 0.
Definition example_C5 : tensor := Out (Layer 3 "res5" BackboneStage) [example_C4] 0.
Definition example_state : State := mkState 4 [] [].

(** *** What the specification says of the feature pyramid (section 4.2) *)

(** A convolution to [feature_size] channels, same padding, no activation. *)
Definition spec_conv (feature_size kernel stride : Z) (uid : nat)
    (name : string) (x : tensor) : tensor :=
  Out (Layer uid name
         (Conv2D feature_size kernel stride "same" None glorot_uniform zeros))
      [x] 0.

(** [x] upsampled to the spatial shape of [target]. *)
Definition spec_upsample_like (uid : nat) (name : string) (x target : tensor)
    : tensor :=
  Out (Layer uid name UpsampleLike) [x; target] 0.

Definition spec_add (uid : nat) (name : string) (a b : tensor) : tensor :=
  Out (Layer uid name Add) [a; b] 0.

Definition spec_relu (uid : nat) (name : string) (x : tensor) : tensor :=
  Out (Layer uid name (Activation "relu")) [x] 0.

(** Top-down pathway: every level is a 1x1 reduction of its backbone map,
    added (below [P5]) to the level above upsampled to match, then refined by
    a 3x3 convolution; [P6] is a 3x3 stride-2 convolution on [C5]; [P7] is
    ReLU then a 3x3 stride-2 convolution on [P6].  [u] is the identity of the
    first layer made. *)
Definition spec_pyramid (u : nat) (feature_size : Z) (C3 C4 C5 : tensor)
    : list tensor :=
  let C5_reduced := spec_conv feature_size 1 1 u "C5_reduced" C5 in
  let P5 := spec_conv feature_size 3 1 (2 + u) "P5" C5_reduced in
  let P4_merged :=
    spec_add (4 + u) "P4_merged"
      (spec_upsample_like (1 + u) "P5_upsampled" C5_reduced C4)
      (spec_conv feature_size 1 1 (3 + u) "C4_reduced" C4) in
  let P4 := spec_conv feature_size 3 1 (6 + u) "P4" P4_merged in
  let P3_merged :=
    spec_add (8 + u) "P3_merged"
      (spec_upsample_like (5 + u) "P4_upsampled" P4_merged C3)
      (spec_conv feature_size 1 1 (7 + u) "C3_reduced" C3) in
  let P3 := spec_conv feature_size 3 1 (9 + u) "P3" P3_merged in
  let P6 := spec_conv feature_size 3 2 (10 + u) "P6" C5 in
  let P7 := spec_conv feature_size 3 2 (12 + u) "P7"
              (spec_relu (11 + u) "C6_relu" P6) in
  [P3; P4; P5; P6; P7].

(** The number of channels of a tensor that a convolution produced. *)
Definition channels (t : tensor) : option Z :=
  match producer t with
  | Layer _ _ (Conv2D filters _ _ _ _ _ _) => Some filters
  | _ => None
  end.

(** The state after [n] more identities were handed out. *)
Definition advance (n : nat) (s : State) : State :=
  mkState (n + next_uid s) (stdout s) (loaded_weights s).

(** *** Reading the per-level structure of a concatenated output *)

(** The axis of the concatenation that produced [t]. *)
Definition concat_axis (t : tensor) : option Z :=
  match producer t with
  | Layer _ _ (Concatenate axis) => Some axis
  | _ => None
  end.

(** The layer that produced each level's block of [t], and the feature map
    each block was computed from, in the order of concatenation. *)
Definition level_producers (t : tensor) : list layer :=
  map producer (operands t).

Definition level_inputs (t : tensor) : list tensor :=
  flat_map operands (operands t).

(** The first of the three models that [create_models] returns. *)
Definition base_model_of (r : Result (Model * Model * Model * State))
    : option Model :=
  match r with
  | Ok (model, _, _, _) => Some model
  | Raise _ => None
  end.

(** [create_models] of the training script on the example backbone, from
    the empty state, with the script's defaults for all but the number of
    GPUs, the submodels name and the common feature sizes. *)
Definition example_create_models (multi_gpu : Z) (submodels : option string)
    (common_feature_sizes : list Z) : Result (Model * Model * Model * State) :=
  create_models channels_last (backbone_retinanet channels_last) 2 None
    multi_gpu true false (1#100000) (5#100) 300 (1#2) (1#4) 2 true
    (times 256 4) (times 256 4) common_feature_sizes false submodels
    (mkState 0 [] []).

(** *** Looking layers up by name, as a function of the model alone *)

Definition has_layer (m : Model) (name : string) : bool :=
  existsb (has_name name) (Model_layers m).

(** What [model.get_layer(name).output] evaluates to, as a function of the
    model alone. *)
Definition find_output (m : Model) (name : string) : Result tensor :=
  match find (has_name name) (Model_layers m) with
  | None => Raise (ValueError (append "No such layer: " name))
  | Some l =>
      match calls_of m l with
      | [] => Raise (no_inbound_nodes l)
      | t :: others =>
          if forallb (same_call t) others
          then Ok (Out (producer t) (operands t) 0)
          else Raise (multiple_inbound_nodes l)
      end
  end.

(** The same for a list of names, stopping at the first lookup that
    fails. *)
Fixpoint find_outputs (m : Model) (names : list string) : Result (list tensor) :=
  match names with
  | [] => Ok []
  | p :: ps =>
      match find_output m p with
      | Raise e => Raise e
      | Ok t =>
          match find_outputs m ps with
          | Ok ts => Ok (t :: ts)
          | Raise e => Raise e
          end
      end
  end.

(** The error of a lookup that fails: the name is missing, or it is there
    and its layer has no single call. *)
Definition lookup_error (m : Model) (name : string) (e : Exception) : Prop :=
  (has_layer m name = false /\
   e = ValueError (append "No such layer: " name)) \/
  (has_layer m name = true /\ exists msg, e = AttributeError msg).

(** A pyramid builder that [RetinaNet] accepts and whose layers are not
    named [P3..P7]: one convolution per level, named [F3..F7]. *)
Definition example_renamed_pyramid (C3 C4 C5 : tensor) : M (list tensor) :=
  let conv name strides :=
    new_layer name (Conv2D 256 3 strides "same" None glorot_uniform zeros) in
  l <- conv "F3" 1 ;; F3 <- call l [C3] ;;
  l <- conv "F4" 1 ;; F4 <- call l [C4] ;;
  l <- conv "F5" 1 ;; F5 <- call l [C5] ;;
  l <- conv "F6" 2 ;; F6 <- call l [F5] ;;
  l <- conv "F7" 2 ;; F7 <- call l [F6] ;;
  ret [F3; F4; F5; F6; F7].

(** The model a computation returned, for the examples ([fallback]
    otherwise). *)
Definition returned (fallback : Model) (r : Result (Model * State)) : Model :=
  match r with
  | Ok (m, _) => m
  | Raise _ => fallback
  end.

Definition returned_state (r : Result (Model * State)) : State :=
  match r with
  | Ok (_, s) => s
  | Raise _ => example_state
  end.

Definition no_model : Model := mkModel 0 "" [] [].

(** [RetinaNet] on the example inputs, with the pyramid builder given. *)
Definition example_RetinaNet
    (create_pyramid_features :
       option (tensor -> tensor -> tensor -> M (list tensor)))
    : Result (Model * State) :=
  RetinaNet channels_last [example_image] [example_C3; example_C4; example_C5]
    2 9 create_pyramid_features None "retinanet" true
    (times 256 4) (times 256 4) (times 256 4) false example_state.

(** The model that [RetinaNet] returns for the renamed pyramid, and the
    state it leaves. *)
Definition example_renamed_model : Model :=
  returned no_model (example_RetinaNet (Some example_renamed_pyramid)).

Definition example_renamed_state : State :=
  returned_state (example_RetinaNet (Some example_renamed_pyramid)).

(** The model that [RetinaNet] returns for the default pyramid. *)
Definition example_model : Model :=
  returned no_model (example_RetinaNet None).

Definition example_model_state : State :=
  returned_state (example_RetinaNet None).

(** *** What the specification says of the inference graph (section 4.6
    and the docstring of [retinanet_bbox]) *)

(** The anchors of one pyramid level: an [Anchors] layer with that level's
    size and stride, called on the level's feature map. *)
Definition spec_level_anchors (u : nat) (ap : AnchorParameters)
    (level : nat * tensor) : tensor :=
  Out (Layer (fst level + u) (format "anchors_" (fst level))
         (Anchors (nth (fst level) (sizes ap) 0) (nth (fst level) (strides ap) 0)
                  (ratios ap) (scales ap)))
      [snd level] 0.

(** The anchors of all levels, concatenated on axis 1 in level order. *)
Definition spec_anchors (u : nat) (ap : AnchorParameters)
    (features : list tensor) : tensor :=
  Out (Layer (5 + u) "anchors" (Concatenate 1))
      (map (spec_level_anchors u ap) (combine (seq 0 5) features)) 0.

(** Box decoding of (anchors, regression), clipping against the image, and
    detection filtering of (clipped boxes, classification, extras); the
    outputs are the outputs of the filter, in its order
    [boxes, scores, labels, other...]. *)
Definition spec_detections (u : nat) (ap : AnchorParameters)
    (features : list tensor) (image regression classification : tensor)
    (other : list tensor) (nms class_specific_filter : bool)
    (score_threshold : Q) (max_detections : Z) (nms_threshold : Q)
    : list tensor :=
  let anchors := spec_anchors u ap features in
  let boxes := Out (Layer (6 + u) "boxes" RegressBoxes) [anchors; regression] 0 in
  let clipped :=
    Out (Layer (7 + u) "clipped_boxes" ClipBoxes) [image; boxes] 0 in
  let filter :=
    Layer (8 + u) "filtered_detections"
      (FilterDetections nms class_specific_filter score_threshold
                        max_detections nms_threshold) in
  map (Out filter (clipped :: classification :: other))
      (seq 0 (3 + List.length other)).

(** [retinanet_bbox] returned the inference graph of the specification on
    top of the tensors of model [m], keeping every layer of [m] and making
    ten new objects: nine layers and the model. *)
Definition wired_on_top (m : Model) (r : Result (Model * State)) (s : State)
    (name : string) (detections : list tensor) : Prop :=
  exists pm,
    r = Ok (pm, advance 10 s) /\
    model_name pm = name /\
    model_inputs pm = model_inputs m /\
    model_outputs pm = detections /\
    incl (Model_layers m) (Model_layers pm).

(** Anchor parameters with six levels, with four, and with no anchors at
    all. *)
Definition example_six_levels : AnchorParameters :=
  mkAnchorParameters [32; 64; 128; 256; 512; 1024] [8; 16; 32; 64; 128; 256]
    (ratios AnchorParameters_default) (scales AnchorParameters_default).

Definition example_four_levels : AnchorParameters :=
  mkAnchorParameters [32; 64; 128; 256] [8; 16; 32; 64]
    (ratios AnchorParameters_default) (scales AnchorParameters_default).

Definition example_no_anchors : AnchorParameters :=
  mkAnchorParameters (sizes AnchorParameters_default)
    (strides AnchorParameters_default) [] [].

(** [retinanet_bbox] on a given model with the defaults of its signature. *)
Definition example_retinanet_bbox (m : Model) (ap : AnchorParameters)
    (s : State) : Result (Model * State) :=
  retinanet_bbox channels_last (Some m) ap true true "retinanet-bbox"
    (5#100) 300 (1#2) no_kwargs s.

(** Anchor parameters cut to the five pyramid levels. *)
Definition first_five (ap : AnchorParameters) : AnchorParameters :=
  mkAnchorParameters (firstn 5 (sizes ap)) (firstn 5 (strides ap))
    (ratios ap) (scales ap).

(** [retinanet_bbox] raises [IndexError] when [sizes] or [strides] has
    fewer than five entries, and returns a model otherwise. *)
Definition raises_exactly_when_too_short (ap : AnchorParameters)
    (r : Result (Model * State)) : Prop :=
  if ((List.length (sizes ap) <? 5) || (List.length (strides ap) <? 5))%nat
  then r = Raise (IndexError "list index out of range")
  else exists pm s', r = Ok (pm, s').

(** Element [i] of a list of tensors, for the examples. *)
Definition tensor_at (i : nat) (ts : list tensor) : tensor :=
  nth i ts example_image.

(** *** The assembled base model with the default pyramid *)

(** The two outputs of [RetinaNet]: for each submodel, its blocks on the
    pyramid levels [P], concatenated on axis 1 under the submodel's tag.
    [u] is the identity of the first concatenation. *)
Definition spec_base_outputs (u : nat) (P : list tensor) (m1 m2 : Model)
    : list tensor :=
  [Out (Layer u "regression" (Concatenate 1))
       (map (fun f => Out (as_layer m1) [f] 0) P) 0;
   Out (Layer (1 + u) "classification" (Concatenate 1))
       (map (fun f => Out (as_layer m2) [f] 0) P) 0].

(** The values of [submodels] that [RetinaNet] knows: none (the default
    heads), or a name that starts with "joint", which needs a non-empty
    [common_feature_sizes]. *)
Definition known_submodels (submodels : option string)
    (common_feature_sizes : list Z) : bool :=
  match submodels with
  | None => true
  | Some s =>
      String.prefix "joint" s &&
      negb (Nat.eqb (List.length common_feature_sizes) 0)
  end.

(** A backbone map that can be told from what [RetinaNet] adds: none of its
    layers has a pyramid name, and all were made before state [s]. *)
Definition foreign_node (s : State) (t : tensor) : bool :=
  forallb (fun p => negb (has_name p (producer t))) pyramid_names &&
  (layer_uid (producer t) <? next_uid s)%nat.

Definition foreign (s : State) (C : tensor) : bool :=
  forallb (foreign_node s) (nodes C).

(** The three tensors that the inference graph combines row by row: the
    anchors and the regression output, operands of the box decoder, and the
    classification output, operand of the detection filter next to the
    boxes. *)
Definition row_aligned_operands (pm : Model)
    : option (tensor * tensor * tensor) :=
  match model_outputs pm with
  | Out _ (Out _ [_; Out _ [anchors; regression] _] _ :: classification :: _) _
    :: _ => Some (anchors, regression, classification)
  | _ => None
  end.

(** The three are concatenations on axis 1 of one block per pyramid level,
    computed from the same feature maps in the same order, [P3] first. *)
Definition same_level_order (anchors regression classification : tensor)
    : Prop :=
  concat_axis anchors = Some 1 /\
  concat_axis regression = Some 1 /\
  concat_axis classification = Some 1 /\
  level_inputs regression = level_inputs anchors /\
  level_inputs classification = level_inputs anchors /\
  map layer_name (map producer (level_inputs anchors)) = pyramid_names.

(** The last layers of a submodel used as a layer: its own when it is a
    head, those of the branch head when it is a joint submodel (a branch head
    called on the trunk). *)
Definition submodel_tail (l : layer) : option tail :=
  match network_tail l with
  | Some tl => Some tl
  | None =>
      match l with
      | Network _ _ _ [Out branch _ _] => network_tail branch
      | _ => None
      end
  end.

(** How many rows a level's block holds for each location of its feature
    map.  A head's last convolution gives [filters] values per location,
    which the reshape cuts into rows of its last dimension; an anchors layer
    gives [Layers.Anchors_rows_per_location]. *)
Definition rows_per_location (block : tensor) : option Z :=
  match producer block with
  | Layer _ _ (Anchors _ _ ratios scales) =>
      Some (Layers.Anchors_rows_per_location ratios scales)
  | Layer _ _ _ => None
  | Network _ _ _ _ =>
      match submodel_tail (producer block) with
      | Some (mkTail (Conv2D filters _ _ _ _ _ _) _ shape _) =>
          Some (filters / last shape 1)
      | _ => None
      end
  end.

(** Level by level, the blocks of the three tensors hold the same number of
    rows per location. *)
Definition same_rows (anchors regression classification : tensor) : Prop :=
  map rows_per_location (operands regression) =
    map rows_per_location (operands anchors) /\
  map rows_per_location (operands classification) =
    map rows_per_location (operands anchors).

(** The model was built, the inference model was built on it, and the
    anchors, the regression output and the classification output that the
    inference graph combines follow one level order, with the same rows at
    every level when the heads were built for the number of anchors of the
    anchor parameters. *)
Definition aligned_assembly (num_classes num_anchors : Z)
    (ap : AnchorParameters) (built : Result (Model * State))
    (bbox : Model -> State -> Result (Model * State)) : Prop :=
  exists base s1 pm s2 anchors regression classification,
    built = Ok (base, s1) /\
    bbox base s1 = Ok (pm, s2) /\
    model_outputs base = [regression; classification] /\
    row_aligned_operands pm = Some (anchors, regression, classification) /\
    same_level_order anchors regression classification /\
    (num_classes <> 0 -> num_anchors = AnchorParameters_num_anchors ap ->
     same_rows anchors regression classification).

(** What [RetinaNet] knows of the two submodels it builds. *)
Definition built_submodels (num_classes num_anchors : Z) (s s1 : State)
    (m1 m2 : Model) : Prop :=
  (next_uid s <= next_uid s1)%nat /\
  (model_uid m1 < next_uid s1)%nat /\ (model_uid m2 < next_uid s1)%nat /\
  In (model_name m1) ["regression_submodel"; "regr_model"] /\
  In (model_name m2) ["classification_submodel"; "class_model"] /\
  (exists perm,
     submodel_tail (as_layer m1) =
     Some (mkTail (Conv2D (num_anchors * 4) 3 1 "same" None (normal 0 (1#100))
                          zeros) perm [-1; 4] None)) /\
  (exists perm,
     submodel_tail (as_layer m2) =
     Some (classification_tail num_classes num_anchors (1#100) perm
             (Some "sigmoid"))).

(** [RetinaNet] returned a model whose every output is computed, level by
    level, from feature maps of 256 channels. *)
Definition pyramid_of_256_channels (r : Result (Model * State)) : Prop :=
  exists base s',
    r = Ok (base, s') /\
    Forall (fun output =>
              List.length (level_inputs output) = 5%nat /\
              Forall (fun P => channels P = Some 256) (level_inputs output))
           (model_outputs base).

(* ================================================================== *)
(** ** The convolution loops of the heads *)
(* ================================================================== *)

Lemma for_enumerate_conv body (Hbody : conv_step body) :
  forall fss i x s, exists y s',
    for_enumerate body i fss x s = Ok (y, s') /\
    conv_stack x y /\
    next_uid s' = (next_uid s + List.length fss)%nat /\
    stdout s' = stdout s /\ loaded_weights s' = loaded_weights s.
Proof.
  induction fss as [|fs fss IH]; intros i x s.
  - exists x, s. cbn. repeat split; auto using conv_stack_nil.
  - destruct (Hbody i fs x s) as (name & f & k & st & p & a & ki & bi & E).
    destruct (IH (S i) (Out (Layer (next_uid s) name (Conv2D f k st p a ki bi)) [x] 0)
                 (bump s)) as (y & s' & E' & Hst & Hn & Ho & Hw).
    exists y, s'. cbn. unfold bind. rewrite E, E'. repeat split; auto.
    + clear - Hst. induction Hst; [apply conv_stack_cons, conv_stack_nil|].
      now apply conv_stack_cons.
    + rewrite Hn. cbn. lia.
Qed.

Ltac run_conv_loop :=
  match goal with
  | |- context [for_enumerate ?b ?i ?l ?x ?s] =>
      let y := fresh "y" in
      let s' := fresh "s" in
      let Hstack := fresh "Hstack" in
      let Huid := fresh "Huid" in
      let Hout := fresh "Hout" in
      let Hw := fresh "Hw" in
      destruct (for_enumerate_conv b
                  ltac:(intros ? ? ? ?; do 8 eexists; reflexivity) l i x s)
        as (y & s' & -> & Hstack & Huid & Hout & Hw)
  end.

Lemma conv_stack_coordinate_channels x y :
  conv_stack x y -> coordinate_channels [y] = coordinate_channels [x].
Proof.
  induction 1 as [|y uid name f k st p a ki bi _ IH]; [reflexivity|].
  rewrite <- IH. unfold coordinate_channels. cbn.
  rewrite !app_nil_r, filter_app. cbn. now rewrite app_nil_r.
Qed.

Lemma coordinate_channels_deep y :
  List.length (filter is_coordinate_channel (deep_layers y)) =
  coordinate_channels [y].
Proof. unfold coordinate_channels. cbn. now rewrite app_nil_r. Qed.

Ltac count_coordinate_channels Hstack :=
  unfold coordinate_channels; cbn;
  rewrite ?app_nil_r, ?filter_app, ?length_app;
  cbn [filter is_coordinate_channel List.length];
  rewrite ?coordinate_channels_deep,
          ?(conv_stack_coordinate_channels _ _ Hstack);
  reflexivity.

Ltac head_is_built :=
  unfold built_head, bind; cbn; run_conv_loop; cbn;
  eexists; eexists; split; [reflexivity|]; cbn;
  match goal with
  | Hstack : conv_stack _ _, Huid : next_uid _ = _ |- _ =>
      cbn in Huid;
      repeat split; try lia; auto; try count_coordinate_channels Hstack
  end.

Lemma default_classification_model_built fmt nc na pfs prior fs name s :
  built_head s (default_classification_model fmt nc na pfs prior fs name s) name
    (mkTail (Conv2D (nc * na) 3 1 "same" None zeros (PriorProbability prior))
            (permute_for fmt) [-1; nc] (Some "sigmoid")) 0.
Proof. unfold default_classification_model. destruct fmt; head_is_built. Qed.

Lemma default_regression_model_built fmt na pfs fs name s :
  built_head s (default_regression_model fmt na pfs fs name s) name
    (mkTail (Conv2D (na * 4) 3 1 "same" None (normal 0 (1#100)) zeros)
            (permute_for fmt) [-1; 4] None) 0.
Proof. unfold default_regression_model. destruct fmt; head_is_built. Qed.

Lemma RegrModel_built na pfs fs name coordconv act s :
  built_head s (RegrModel na pfs fs name coordconv act s) name
    (mkTail (Conv2D (na * 4) 3 1 "same" None (normal 0 (1#100)) zeros)
            None [-1; 4] None)
    (if coordconv then 1 else 0).
Proof. unfold RegrModel. destruct coordconv; head_is_built. Qed.

Lemma ClassModel_built nc na pfs prior fs name act final_activation coordconv s :
  built_head s
    (ClassModel nc na pfs prior fs name act final_activation coordconv s) name
    (mkTail (Conv2D (nc * na) 3 1 "same" None zeros (PriorProbability prior))
            None [-1; nc] (if final_activation then Some "sigmoid" else None))
    (if coordconv then 1 else 0).
Proof.
  unfold ClassModel. destruct coordconv, final_activation; head_is_built.
Qed.

Lemma CommonPFModel_built na pfs fs name act coordconv s :
  exists m s',
    CommonPFModel na pfs fs name act coordconv s = Ok (m, s') /\
    model_name m = name /\
    coordinate_channels (model_outputs m) = (if coordconv then 1 else 0)%nat /\
    (next_uid s <= model_uid m)%nat /\ next_uid s' = S (model_uid m) /\
    loaded_weights s' = loaded_weights s.
Proof.
  unfold CommonPFModel. destruct coordconv.
  all: unfold bind; cbn; run_conv_loop; cbn.
  all: eexists; eexists; split; [reflexivity|]; cbn.
  all: cbn in Huid; repeat split; try lia; auto.
  all: count_coordinate_channels Hstack.
Qed.

Lemma list_last_nonempty {A} (l : list A) s :
  l <> [] -> exists a, list_last l s = Ok (a, s).
Proof.
  intros H. unfold list_last. destruct (rev l) as [|a r] eqn:E.
  - apply (f_equal (@rev A)) in E. rewrite rev_involutive in E. now destruct H.
  - now exists a.
Qed.

Lemma joint_submodels_built nc na pfs cmfs cfs rfs coordconv s :
  cmfs <> [] ->
  exists regr_model class_model s' (regr class trunk : Model) input,
    joint_submodels nc na pfs cmfs cfs rfs coordconv s =
      Ok ([("regression", regr_model); ("classification", class_model)], s') /\
    model_outputs regr_model =
      [Out (as_layer regr) [Out (as_layer trunk) [input] 0] 0] /\
    model_outputs class_model =
      [Out (as_layer class) [Out (as_layer trunk) [input] 0] 0] /\
    branch_and_trunk regr_model = Some (as_layer regr, as_layer trunk) /\
    branch_and_trunk class_model = Some (as_layer class, as_layer trunk) /\
    model_name regr_model = "regr_model" /\
    model_name class_model = "class_model" /\
    model_name trunk = "common_submodel" /\
    model_name regr = "regression_submodel" /\
    model_name class = "classification_submodel" /\
    coordinate_channels (model_outputs trunk) =
      (if coordconv then 1 else 0)%nat /\
    coordinate_channels (model_outputs regr) = 0%nat /\
    coordinate_channels (model_outputs class) = 0%nat /\
    model_tail regr =
      Some (mkTail (Conv2D (na * 4) 3 1 "same" None (normal 0 (1#100)) zeros)
                   None [-1; 4] None) /\
    model_tail class =
      Some (classification_tail nc na (1#100) None (Some "sigmoid")) /\
    (next_uid s <= model_uid regr_model)%nat /\
    model_uid class_model = S (model_uid regr_model) /\
    next_uid s' = S (model_uid class_model) /\
    loaded_weights s' = loaded_weights s.
Proof.
  intros Hne. unfold joint_submodels, bind. cbn -[CommonPFModel RegrModel ClassModel].
  match goal with
  | |- context [CommonPFModel ?a ?b ?c ?d ?e ?f ?st] =>
      destruct (CommonPFModel_built a b c d e f st)
        as (trunk & s1 & -> & Htn & Htc & Htl & Htu & Htw)
  end.
  cbn -[RegrModel ClassModel list_last].
  destruct (list_last_nonempty cmfs s1 Hne) as (last & ->).
  match goal with
  | |- context [RegrModel ?a ?b ?c ?d ?e ?f ?st] =>
      destruct (RegrModel_built a b c d e f st)
        as (regr & s2 & -> & Hrn & Hrt & Hrc & Hrl & Hru & Hrw)
  end.
  cbn -[ClassModel list_last].
  destruct (list_last_nonempty cmfs s2 Hne) as (last' & ->).
  match goal with
  | |- context [ClassModel ?a ?b ?c ?d ?e ?f ?g ?h ?i ?st] =>
      destruct (ClassModel_built a b c d e f g h i st)
        as (class & s3 & -> & Hcn & Hct & Hcc & Hcl & Hcu & Hcw)
  end.
  cbn -[as_layer].
  eexists. eexists. eexists. exists regr, class, trunk. eexists.
  split; [reflexivity|]. cbn -[as_layer].
  cbn in Htl, Htw.
  repeat split; auto; try lia; congruence.
Qed.

Lemma network_tail_as_layer m : network_tail (as_layer m) = model_tail m.
Proof. reflexivity. Qed.

(** Without common feature sizes [joint_submodels] cannot size its branch
    heads: [common_feature_sizes[-1]] raises. *)
Lemma joint_submodels_needs_common_feature_sizes nc na pfs cfs rfs coordconv s :
  joint_submodels nc na pfs [] cfs rfs coordconv s =
  Raise (IndexError "list index out of range").
Proof. destruct coordconv; reflexivity. Qed.

Lemma default_submodels_built fmt nc na cfs rfs s :
  exists regr class s',
    default_submodels fmt nc na cfs rfs s =
      Ok ([("regression", regr); ("classification", class)], s') /\
    model_name regr = "regression_submodel" /\
    model_name class = "classification_submodel" /\
    model_tail regr =
      Some (mkTail (Conv2D (na * 4) 3 1 "same" None (normal 0 (1#100)) zeros)
                   (permute_for fmt) [-1; 4] None) /\
    model_tail class =
      Some (classification_tail nc na (1#100) (permute_for fmt) (Some "sigmoid")) /\
    (next_uid s <= model_uid regr)%nat /\
    (model_uid regr < model_uid class)%nat /\
    next_uid s' = S (model_uid class) /\
    loaded_weights s' = loaded_weights s.
Proof.
  unfold default_submodels, bind.
  destruct (default_regression_model_built fmt na 256 rfs "regression_submodel" s)
    as (regr & s1 & -> & Hrn & Hrt & _ & Hrl & Hru & Hrw).
  destruct (default_classification_model_built fmt nc na 256 (1#100) cfs
              "classification_submodel" s1)
    as (class & s2 & -> & Hcn & Hct & _ & Hcl & Hcu & Hcw).
  exists regr, class, s2. cbn. repeat split; auto; try lia; congruence.
Qed.

(* ================================================================== *)
(** ** The prediction heads *)
(* ================================================================== *)

(** C8.  Both regression heads, for every argument: the last convolution
    is 3x3, same padding, with [4 * num_anchors] filters; its output
    (permuted first for channels-first data in the default head) is reshaped
    to rows of 4; and no activation follows, neither in the convolution nor
    after the reshape. *)
Theorem regression_heads_end_in_raw_deltas :
  (forall fmt num_anchors pyramid_feature_size feature_sizes name s,
      returns_head
        (default_regression_model fmt num_anchors pyramid_feature_size
           feature_sizes name s)
        (regression_tail num_anchors (permute_for fmt))) /\
  (forall num_anchors pyramid_feature_size feature_sizes name coordconv
          activation s,
      returns_head
        (RegrModel num_anchors pyramid_feature_size feature_sizes name
           coordconv activation s)
        (regression_tail num_anchors None)).
Proof.
  unfold returns_head, regression_tail. split; intros.
  - destruct (default_regression_model_built fmt num_anchors pyramid_feature_size
                feature_sizes name s) as (m & s' & E & _ & Ht & _).
    exists m, s'. now rewrite Z.mul_comm.
  - destruct (RegrModel_built num_anchors pyramid_feature_size feature_sizes
                name coordconv activation s) as (m & s' & E & _ & Ht & _).
    exists m, s'. now rewrite Z.mul_comm.
Qed.

(** C7, as the claim states it, fails: [ClassModel] called with
    [final_activation=False] returns a head whose output is the reshape, with
    no sigmoid after it. *)
Lemma ClassModel_without_final_activation_has_no_sigmoid :
  exists m s',
    ClassModel 2 9 256 (1#100) [256; 256] "classification_submodel"
      (Some "relu") false false example_state = Ok (m, s') /\
    model_tail m = Some (classification_tail 2 9 (1#100) None None) /\
    model_tail m <> Some (classification_tail 2 9 (1#100) None (Some "sigmoid")).
Proof.
  eexists. eexists. split; [vm_compute; reflexivity|].
  split; [reflexivity|]. vm_compute. discriminate.
Qed.

(** C7, amended.  In both classification heads, for every argument, the
    last convolution is 3x3, same padding, with [num_classes * num_anchors]
    filters, a zero kernel initializer and the prior-probability bias
    initializer, and its output is reshaped to rows of [num_classes].  The
    default head then applies a sigmoid; [ClassModel] applies it exactly when
    [final_activation] is true.  The heads that [default_submodels] and
    [joint_submodels] build use the prior 0.01 and do apply the sigmoid. *)
Theorem classification_heads_end_in_prior_conv :
  (forall fmt num_classes num_anchors pyramid_feature_size prior_probability
          feature_sizes name s,
      returns_head
        (default_classification_model fmt num_classes num_anchors
           pyramid_feature_size prior_probability feature_sizes name s)
        (classification_tail num_classes num_anchors prior_probability
           (permute_for fmt) (Some "sigmoid"))) /\
  (forall num_classes num_anchors pyramid_feature_size prior_probability
          feature_sizes name activation final_activation coordconv s,
      returns_head
        (ClassModel num_classes num_anchors pyramid_feature_size
           prior_probability feature_sizes name activation final_activation
           coordconv s)
        (classification_tail num_classes num_anchors prior_probability None
           (if final_activation then Some "sigmoid" else None))) /\
  (forall fmt num_classes num_anchors class_feature_sizes regr_feature_sizes s,
      exists regr class s',
        default_submodels fmt num_classes num_anchors class_feature_sizes
          regr_feature_sizes s =
          Ok ([("regression", regr); ("classification", class)], s') /\
        model_tail class =
          Some (classification_tail num_classes num_anchors (1#100)
                  (permute_for fmt) (Some "sigmoid"))) /\
  (forall num_classes num_anchors pyramid_feature_size common_feature_sizes
          class_feature_sizes regr_feature_sizes coordconv s,
      common_feature_sizes <> [] ->
      joint_classification_branch num_classes num_anchors
        (joint_submodels num_classes num_anchors pyramid_feature_size
           common_feature_sizes class_feature_sizes regr_feature_sizes
           coordconv s)).
Proof.
  unfold returns_head. repeat split; intros.
  - destruct (default_classification_model_built fmt num_classes num_anchors
                pyramid_feature_size prior_probability feature_sizes name s)
      as (m & s' & E & _ & Ht & _).
    now exists m, s'.
  - destruct (ClassModel_built num_classes num_anchors pyramid_feature_size
                prior_probability feature_sizes name activation
                final_activation coordconv s) as (m & s' & E & _ & Ht & _).
    now exists m, s'.
  - destruct (default_submodels_built fmt num_classes num_anchors
                class_feature_sizes regr_feature_sizes s)
      as (regr & class & s' & E & _ & _ & _ & Ht & _).
    now exists regr, class, s'.
  - destruct (joint_submodels_built num_classes num_anchors pyramid_feature_size
                common_feature_sizes class_feature_sizes regr_feature_sizes
                coordconv s H)
      as (rm & cm & s' & regr & class & trunk & inp & E & _ & _ & Hr & Hc & _
          & _ & Hn1 & Hn2 & Hn3 & _ & _ & _ & _ & Ht & _).
    unfold joint_classification_branch, returns_joint.
    exists rm, cm, s', (as_layer regr), (as_layer class), (as_layer trunk).
    repeat split; auto.
Qed.

Lemma classification_heads_end_in_prior_conv_witness :
  [256; 256] <> ([] : list Z) /\
  joint_classification_branch 2 9
    (joint_submodels 2 9 256 [256; 256] [256; 256] [256; 256] true
       example_state).
Proof.
  split; [discriminate|].
  apply classification_heads_end_in_prior_conv. discriminate.
Defined.

(** C10.  Whatever [coordconv] is, [joint_submodels] puts no
    coordinate-channel layer into the regression and classification branch
    heads; the common trunk holds one exactly when [coordconv] is true. *)
Theorem joint_submodels_coordconv_only_in_trunk :
  forall num_classes num_anchors pyramid_feature_size common_feature_sizes
         class_feature_sizes regr_feature_sizes coordconv s,
    common_feature_sizes <> [] ->
    coordconv_only_in_trunk coordconv
      (joint_submodels num_classes num_anchors pyramid_feature_size
         common_feature_sizes class_feature_sizes regr_feature_sizes
         coordconv s).
Proof.
  intros.
  destruct (joint_submodels_built num_classes num_anchors pyramid_feature_size
              common_feature_sizes class_feature_sizes regr_feature_sizes
              coordconv s H)
    as (rm & cm & s' & regr & class & trunk & inp & E & _ & _ & Hr & Hc & _
        & _ & Hn1 & Hn2 & Hn3 & Ht & Hrc & Hcc & _).
  unfold coordconv_only_in_trunk, returns_joint.
  exists rm, cm, s', (as_layer regr), (as_layer class), (as_layer trunk).
  repeat split; auto.
Qed.

Lemma joint_submodels_coordconv_only_in_trunk_witness :
  [256; 256] <> ([] : list Z) /\
  coordconv_only_in_trunk true
    (joint_submodels 2 9 256 [256; 256] [256; 256] [256; 256] true
       example_state).
Proof.
  split; [discriminate|].
  apply joint_submodels_coordconv_only_in_trunk. discriminate.
Defined.

(* ================================================================== *)
(** ** Shared and unshared heads *)
(* ================================================================== *)

Lemma call_model_ok model args s :
  call_model model args s = Ok (Out (as_layer model) args 0, s).
Proof. reflexivity. Qed.

Lemma comprehension_call_model model features s :
  comprehension (fun f => call_model model [f]) features s =
  Ok (map (fun f => Out (as_layer model) [f] 0) features, s).
Proof.
  induction features as [|f fs IH]; [reflexivity|].
  cbn [comprehension map]. unfold bind. rewrite call_model_ok, IH. reflexivity.
Qed.

(** The flag of the loop is never cleared, so no turn clones the model. *)
Lemma build_model_pyramid_loop_never_clones model features inputs s :
  __build_model_pyramid_loop model true features inputs s =
  Ok (inputs ++ map (fun f => Out (as_layer model) [f] 0) features, s).
Proof.
  revert inputs. induction features as [|f fs IH]; intros inputs.
  - cbn. now rewrite app_nil_r.
  - cbn [__build_model_pyramid_loop map]. unfold bind, ret.
    rewrite call_model_ok, IH, <- app_assoc. reflexivity.
Qed.

Lemma build_model_pyramid_unfold name model features share s :
  __build_model_pyramid name model features share s =
  call (Layer (next_uid s) name (Concatenate 1))
       (map (fun f => Out (as_layer model) [f] 0) features) (bump s).
Proof.
  unfold __build_model_pyramid. destruct share.
  - unfold new_layer, bind, fresh_uid, ret.
    now rewrite comprehension_call_model.
  - unfold bind. rewrite build_model_pyramid_loop_never_clones. reflexivity.
Qed.

Lemma build_model_pyramid_share_is_dead name model features s :
  __build_model_pyramid name model features false s =
  __build_model_pyramid name model features true s.
Proof. now rewrite !build_model_pyramid_unfold. Qed.

(** C1, on the code.  With [share=False] the five levels are not given
    five head instances: every level's block is produced by the one model
    that was passed in, and the result is, tensor for tensor and state for
    state, the result of [share=True].  In both modes the blocks are
    concatenated on axis 1 in the order of the features. *)
Theorem unshared_pyramid_applies_one_head_instance :
  forall name model f3 f4 f5 f6 f7 s,
    exists out,
      __build_model_pyramid name model [f3; f4; f5; f6; f7] false s =
        Ok (out, bump s) /\
      __build_model_pyramid name model [f3; f4; f5; f6; f7] true s =
        Ok (out, bump s) /\
      producer out = Layer (next_uid s) name (Concatenate 1) /\
      level_producers out = repeat (as_layer model) 5 /\
      level_inputs out = [f3; f4; f5; f6; f7].
Proof.
  intros. rewrite !build_model_pyramid_unfold. cbn.
  eexists. repeat split.
Qed.

(* ================================================================== *)
(** ** [create_models] and the number of GPUs *)
(* ================================================================== *)

(** With more than one GPU the six configuration arguments of
    [create_models] are dead: the backbone is called without them. *)
Lemma create_models_multi_gpu_drops_configuration
    fmt backbone nc weights multi_gpu skip freeze lr st md nt alpha gamma
    share cfs rfs cmfs coordconv submodels s :
  1 < multi_gpu ->
  create_models fmt backbone nc weights multi_gpu skip freeze lr st md nt
    alpha gamma share cfs rfs cmfs coordconv submodels s =
  create_models fmt backbone nc weights multi_gpu skip freeze lr st md nt
    alpha gamma true [] [] [] false None s.
Proof.
  intros H. unfold create_models.
  now rewrite (proj2 (Z.ltb_lt 1 multi_gpu) H).
Qed.

(** C2, on the code.  Asked for joint submodels, [create_models] with two
    GPUs returns the base model of the default configuration, which is not
    the base model it returns for the same request without GPUs. *)
Theorem multi_gpu_base_model_is_the_default_one :
  base_model_of (example_create_models 2 (Some "joint_submodels") [256; 256]) =
  base_model_of (example_create_models 0 None []) /\
  base_model_of (example_create_models 2 (Some "joint_submodels") [256; 256]) <>
  base_model_of (example_create_models 0 (Some "joint_submodels") [256; 256]) /\
  base_model_of (example_create_models 0 (Some "joint_submodels") [256; 256]) <>
  None.
Proof.
  split; [vm_compute; reflexivity|]. split.
  - intros H.
    apply (f_equal (option_map (fun m => map layer_name (Model_layers m)))) in H.
    vm_compute in H. discriminate H.
  - vm_compute. discriminate.
Qed.

(* ================================================================== *)
(** ** Looking up the pyramid layers *)
(* ================================================================== *)

Lemma get_layer_eq m name s :
  get_layer m name s =
  match find (has_name name) (Model_layers m) with
  | Some l => Ok (l, s)
  | None => Raise (ValueError (append "No such layer: " name))
  end.
Proof. unfold get_layer. now destruct (find _ _). Qed.

Lemma lookup_eq m name s :
  (l <- get_layer m name ;; layer_output m l) s =
  match find_output m name with
  | Ok t => Ok (t, s)
  | Raise e => Raise e
  end.
Proof.
  unfold bind, find_output. rewrite get_layer_eq.
  destruct (find (has_name name) (Model_layers m)) as [l|]; [|reflexivity].
  unfold layer_output. destruct (calls_of m l) as [|t others]; [reflexivity|].
  now destruct (forallb (same_call t) others).
Qed.

Lemma lookups_eq m names s :
  comprehension (fun p_name => l <- get_layer m p_name ;; layer_output m l)
    names s =
  match find_outputs m names with
  | Ok ts => Ok (ts, s)
  | Raise e => Raise e
  end.
Proof.
  induction names as [|p ps IH]; [reflexivity|].
  cbn [comprehension find_outputs]. unfold bind at 1. rewrite lookup_eq.
  destruct (find_output m p) as [t|]; [|reflexivity].
  unfold bind at 1. rewrite IH.
  now destruct (find_outputs m ps).
Qed.

Lemma find_output_error m name e :
  find_output m name = Raise e -> lookup_error m name e.
Proof.
  unfold find_output, lookup_error, has_layer.
  destruct (find (has_name name) (Model_layers m)) as [l|] eqn:E.
  - intros H. right. split.
    + apply find_some in E. apply existsb_exists. eauto.
    + destruct (calls_of m l) as [|t others];
        [|destruct (forallb (same_call t) others)]; inversion H;
        unfold no_inbound_nodes, multiple_inbound_nodes; eauto.
  - intros [= <-]. left. split; [|reflexivity].
    destruct (existsb _ _) eqn:Ex; [|reflexivity].
    apply existsb_exists in Ex as (l & Hin & Hl).
    apply (find_none _ _ E) in Hin. congruence.
Qed.

Lemma find_output_missing m name t :
  has_layer m name = false -> find_output m name <> Ok t.
Proof.
  unfold has_layer, find_output. intros H.
  destruct (find (has_name name) (Model_layers m)) as [l|] eqn:E; [|discriminate].
  apply find_some in E.
  assert (existsb (has_name name) (Model_layers m) = true)
    by (apply existsb_exists; eauto).
  congruence.
Qed.

Lemma find_outputs_missing m names :
  forallb (has_layer m) names = false ->
  exists p e, In p names /\ lookup_error m p e /\
    find_outputs m names = Raise e.
Proof.
  induction names as [|q qs IH]; [discriminate|].
  cbn [forallb find_outputs]. intros H.
  destruct (find_output m q) as [t|e] eqn:E.
  - destruct (has_layer m q) eqn:Hq.
    + destruct (IH H) as (p & e & Hin & Hp & ->). exists p, e. cbn. auto.
    + now destruct (find_output_missing m q t Hq).
  - exists q, e. cbn. auto using find_output_error.
Qed.

(** C9.  [retinanet_bbox] needs layers named [P3..P7] in the model it is
    given: when one of the five names is not a layer of the model, the
    construction raises, whatever the other arguments, the error of the first
    of the five lookups that fails: the [ValueError] of [get_layer] for a
    name that is missing, unless a name before it is there on a layer without
    a single call, for which [.output] raises first. *)
Theorem retinanet_bbox_requires_pyramid_names :
  forall fmt m anchor_parameters nms class_specific_filter name
         score_threshold max_detections nms_threshold kw s,
    forallb (has_layer m) pyramid_names = false ->
    exists p_name e,
      In p_name pyramid_names /\ lookup_error m p_name e /\
      retinanet_bbox fmt (Some m) anchor_parameters nms class_specific_filter
        name score_threshold max_detections nms_threshold kw s = Raise e.
Proof.
  intros.
  destruct (find_outputs_missing m pyramid_names H) as (p & e & Hin & Hp & E).
  exists p, e. repeat split; auto.
  unfold retinanet_bbox. unfold bind at 1. unfold ret at 1.
  unfold bind at 1. now rewrite lookups_eq, E.
Qed.

Lemma example_renamed_model_is_built :
  example_RetinaNet (Some example_renamed_pyramid) =
  Ok (example_renamed_model, example_renamed_state).
Proof. vm_compute. reflexivity. Qed.

Lemma retinanet_bbox_requires_pyramid_names_witness :
  forallb (has_layer example_renamed_model) pyramid_names = false /\
  exists p_name e,
    In p_name pyramid_names /\ lookup_error example_renamed_model p_name e /\
    retinanet_bbox channels_last (Some example_renamed_model)
      AnchorParameters_default true true "retinanet-bbox" (5#100) 300 (1#2)
      no_kwargs example_renamed_state = Raise e.
Proof.
  split; [vm_compute; reflexivity|].
  apply retinanet_bbox_requires_pyramid_names. vm_compute; reflexivity.
Defined.

(* ================================================================== *)
(** ** The inference graph *)
(* ================================================================== *)

Lemma find_outputs_length m names ts :
  find_outputs m names = Ok ts -> List.length ts = List.length names.
Proof.
  revert ts. induction names as [|p ps IH]; intros ts; cbn.
  - now intros [= <-].
  - destruct (find_output m p); [|discriminate].
    destruct (find_outputs m ps) as [ts'|]; [|discriminate].
    intros [= <-]. cbn. now rewrite (IH ts').
Qed.

Ltac five_or_more l H :=
  destruct l as [|? [|? [|? [|? [|? ?]]]]]; cbn in H; try lia.

Lemma build_anchors_built ap features s :
  List.length features = 5%nat ->
  (5 <= List.length (sizes ap))%nat -> (5 <= List.length (strides ap))%nat ->
  __build_anchors ap features s = Ok (spec_anchors (next_uid s) ap features,
                                      advance 6 s).
Proof.
  intros Hf Hz Ht. destruct ap as [sz st ra sc]. cbn in *.
  destruct features as [|f3 [|f4 [|f5 [|f6 [|f7 [|]]]]]]; try discriminate.
  five_or_more sz Hz. five_or_more st Ht. reflexivity.
Qed.

Lemma build_anchors_short ap features s :
  List.length features = 5%nat ->
  (List.length (sizes ap) < 5)%nat \/ (List.length (strides ap) < 5)%nat ->
  __build_anchors ap features s = Raise (IndexError "list index out of range").
Proof.
  intros Hf H. destruct ap as [sz st ra sc]. cbn in *.
  destruct features as [|f3 [|f4 [|f5 [|f6 [|f7 [|]]]]]]; try discriminate.
  destruct sz as [|? [|? [|? [|? [|? ?]]]]], st as [|? [|? [|? [|? [|? ?]]]]].
  all: cbn in H; try lia; reflexivity.
Qed.

Lemma build_anchors_first_five ap features s :
  List.length features = 5%nat ->
  __build_anchors ap features s = __build_anchors (first_five ap) features s.
Proof.
  intros Hf. destruct ap as [sz st ra sc]. unfold first_five. cbn [sizes strides ratios scales].
  destruct features as [|f3 [|f4 [|f5 [|f6 [|f7 [|]]]]]]; try discriminate.
  destruct sz as [|? [|? [|? [|? [|? ?]]]]], st as [|? [|? [|? [|? [|? ?]]]]].
  all: reflexivity.
Qed.

Lemma retinanet_bbox_first_five fmt m ap nms csf name st md nt kw s :
  retinanet_bbox fmt (Some m) ap nms csf name st md nt kw s =
  retinanet_bbox fmt (Some m) (first_five ap) nms csf name st md nt kw s.
Proof.
  unfold retinanet_bbox.
  unfold bind at 1. unfold ret at 1. unfold bind at 1. rewrite lookups_eq.
  symmetry.
  unfold bind at 1. unfold ret at 1. unfold bind at 1. rewrite lookups_eq.
  destruct (find_outputs m pyramid_names) as [features|] eqn:Hf; [|reflexivity].
  pose proof (find_outputs_length _ _ _ Hf) as Hlen.
  unfold bind at 1. symmetry. unfold bind at 1.
  now rewrite (build_anchors_first_five ap features s Hlen).
Qed.

Lemma model_layers_kept m regression classification other anchors u1 n1 c1
    u2 n2 c2 image fd k :
  model_outputs m = regression :: classification :: other ->
  incl (Model_layers m)
    (map producer
       (flat_map nodes
          (map (Out fd
                  (Out (Layer u2 n2 c2)
                     [image; Out (Layer u1 n1 c1) [anchors; regression] 0] 0
                   :: classification :: other))
               (seq 0 (3 + k))))).
Proof.
  intros Ho l Hl. unfold Model_layers, Model_nodes in Hl. rewrite Ho in Hl.
  apply in_map_iff in Hl as (t & <- & Hin). apply in_map.
  cbn [seq map flat_map Nat.add]. apply in_or_app. left.
  cbn [nodes flat_map]. apply in_or_app. left.
  cbn [flat_map] in Hin.
  rewrite !in_app_iff in *. cbn [In]. intuition.
Qed.

Lemma retinanet_bbox_eq fmt m ap nms csf name st md nt kw s
    features regression classification other image inputs' :
  find_outputs m pyramid_names = Ok features ->
  model_outputs m = regression :: classification :: other ->
  model_inputs m = image :: inputs' ->
  (5 <= List.length (sizes ap))%nat -> (5 <= List.length (strides ap))%nat ->
  retinanet_bbox fmt (Some m) ap nms csf name st md nt kw s =
  Ok (mkModel (9 + next_uid s) name (model_inputs m)
        (spec_detections (next_uid s) ap features image regression
           classification other nms csf st md nt),
      advance 10 s).
Proof.
  intros Hf Ho Hi Hz Ht.
  pose proof (find_outputs_length _ _ _ Hf) as Hlen.
  unfold retinanet_bbox.
  unfold bind at 1. unfold ret at 1. unfold bind at 1. rewrite lookups_eq, Hf.
  unfold bind at 1. rewrite (build_anchors_built ap features s Hlen Hz Ht).
  rewrite Ho, Hi. reflexivity.
Qed.

(** C5.  Given a model with layers [P3..P7], at least two outputs and an
    input, and anchor parameters with five sizes and strides,
    [retinanet_bbox] returns the model whose outputs are the detections of
    the specification: anchors of the [P3..P7] outputs, [boxes] decoding
    (anchors, first output), [clipped_boxes] clipping against the first
    input, [filtered_detections] filtering (clipped boxes, second output,
    further outputs), in the filter's output order.  The model's inputs are
    the given model's; every layer of the given model is a layer of the
    result, and only ten new objects are made (nine layers and the model),
    so no layer of the given model is copied. *)
Theorem retinanet_bbox_wires_decoder_and_filter_on_top :
  forall fmt m ap nms class_specific_filter name score_threshold
         max_detections nms_threshold kw s
         features regression classification other image inputs',
    find_outputs m pyramid_names = Ok features ->
    model_outputs m = regression :: classification :: other ->
    model_inputs m = image :: inputs' ->
    (5 <= List.length (sizes ap))%nat -> (5 <= List.length (strides ap))%nat ->
    wired_on_top m
      (retinanet_bbox fmt (Some m) ap nms class_specific_filter name
         score_threshold max_detections nms_threshold kw s)
      s name
      (spec_detections (next_uid s) ap features image regression
         classification other nms class_specific_filter score_threshold
         max_detections nms_threshold).
Proof.
  intros fmt m ap nms csf name st md nt kw s features regression
         classification other image inputs' Hf Ho Hi Hz Ht.
  unfold wired_on_top.
  rewrite (retinanet_bbox_eq fmt m ap nms csf name st md nt kw s features
             regression classification other image inputs' Hf Ho Hi Hz Ht).
  eexists. split; [reflexivity|].
  cbn [model_name model_inputs model_outputs]. repeat split.
  unfold Model_layers at 2, Model_nodes. cbn [model_outputs].
  unfold spec_detections. now apply model_layers_kept.
Qed.

Lemma example_model_is_built :
  example_RetinaNet None = Ok (example_model, example_model_state).
Proof. vm_compute. reflexivity. Qed.

Lemma retinanet_bbox_wires_decoder_and_filter_on_top_witness :
  find_outputs example_model pyramid_names =
    Ok (spec_pyramid 21 256 example_C3 example_C4 example_C5) /\
  model_outputs example_model =
    [tensor_at 0 (model_outputs example_model);
     tensor_at 1 (model_outputs example_model)] /\
  model_inputs example_model = [example_image] /\
  (5 <= List.length (sizes AnchorParameters_default))%nat /\
  (5 <= List.length (strides AnchorParameters_default))%nat /\
  wired_on_top example_model
    (retinanet_bbox channels_last (Some example_model) AnchorParameters_default
       true true "retinanet-bbox" (5#100) 300 (1#2) no_kwargs
       example_model_state)
    example_model_state "retinanet-bbox"
    (spec_detections (next_uid example_model_state) AnchorParameters_default
       (spec_pyramid 21 256 example_C3 example_C4 example_C5) example_image
       (tensor_at 0 (model_outputs example_model))
       (tensor_at 1 (model_outputs example_model)) []
       true true (5#100) 300 (1#2)).
Proof.
  assert (H1 : find_outputs example_model pyramid_names =
               Ok (spec_pyramid 21 256 example_C3 example_C4 example_C5))
    by (vm_compute; reflexivity).
  assert (H2 : model_outputs example_model =
               [tensor_at 0 (model_outputs example_model);
                tensor_at 1 (model_outputs example_model)])
    by (vm_compute; reflexivity).
  assert (H3 : model_inputs example_model = [example_image])
    by (vm_compute; reflexivity).
  assert (H4 : (5 <= List.length (sizes AnchorParameters_default))%nat)
    by (simpl; lia).
  assert (H5 : (5 <= List.length (strides AnchorParameters_default))%nat)
    by (simpl; lia).
  repeat (split; [assumption|]).
  exact (retinanet_bbox_wires_decoder_and_filter_on_top channels_last
           example_model AnchorParameters_default true true "retinanet-bbox"
           (5#100) 300 (1#2) no_kwargs example_model_state _ _ _ _ _ _
           H1 H2 H3 H4 H5).
Defined.

(* ================================================================== *)
(** ** Anchor parameters of the wrong length *)
(* ================================================================== *)

(** C3, as the claim states it, fails: anchor parameters with six sizes and
    six strides are accepted, and the construction returns a model. *)
Lemma six_level_anchor_parameters_are_accepted :
  List.length (sizes example_six_levels) <> 5%nat /\
  List.length (strides example_six_levels) <> 5%nat /\
  exists pm s',
    example_retinanet_bbox example_model example_six_levels
      example_model_state = Ok (pm, s').
Proof.
  split; [discriminate|]. split; [discriminate|].
  eexists. eexists. vm_compute. reflexivity.
Qed.

(** Nor does [retinanet_bbox] look at the number of anchors: with no ratios
    and no scales the construction returns a model as well. *)
Lemma zero_anchors_are_accepted :
  AnchorParameters_num_anchors example_no_anchors = 0 /\
  exists pm s',
    example_retinanet_bbox example_model example_no_anchors
      example_model_state = Ok (pm, s').
Proof.
  split; [reflexivity|]. eexists. eexists. vm_compute. reflexivity.
Qed.

(** With four sizes and strides the fifth level finds no size: the
    construction raises. *)
Lemma four_level_anchor_parameters_raise :
  example_retinanet_bbox example_model example_four_levels example_model_state
  = Raise (IndexError "list index out of range").
Proof. vm_compute. reflexivity. Qed.

(** C3, amended.  On a model whose five pyramid lookups succeed and that
    has two outputs and an input, [retinanet_bbox] raises, while the graph is
    built, exactly when [sizes] or [strides] has fewer than five entries (the
    index error of reading the missing entry); with five entries or more it
    returns a model, whatever the ratios and scales, none included.  Entries
    past the fifth are never read: cutting the lists to five changes
    nothing. *)
Theorem retinanet_bbox_raises_only_on_short_anchor_lists :
  forall fmt m ap nms class_specific_filter name score_threshold
         max_detections nms_threshold kw s features,
    find_outputs m pyramid_names = Ok features ->
    (2 <= List.length (model_outputs m))%nat ->
    (1 <= List.length (model_inputs m))%nat ->
    raises_exactly_when_too_short ap
      (retinanet_bbox fmt (Some m) ap nms class_specific_filter name
         score_threshold max_detections nms_threshold kw s) /\
    retinanet_bbox fmt (Some m) ap nms class_specific_filter name
      score_threshold max_detections nms_threshold kw s =
    retinanet_bbox fmt (Some m) (first_five ap) nms class_specific_filter name
      score_threshold max_detections nms_threshold kw s.
Proof.
  intros fmt m ap nms csf name st md nt kw s features Hf Ho Hi.
  split; [|apply retinanet_bbox_first_five].
  unfold raises_exactly_when_too_short.
  destruct ((_ <? 5) || (_ <? 5))%nat eqn:E.
  - pose proof (find_outputs_length _ _ _ Hf) as Hlen.
    unfold retinanet_bbox.
    unfold bind at 1. unfold ret at 1. unfold bind at 1. rewrite lookups_eq, Hf.
    unfold bind at 1. rewrite (build_anchors_short ap features s Hlen); auto.
    apply orb_prop in E as [E|E]; apply Nat.ltb_lt in E; auto.
  - apply orb_false_elim in E as [Ez Et].
    apply Nat.ltb_ge in Ez, Et.
    destruct (model_outputs m) as [|regression [|classification other]] eqn:Eo;
      cbn in Ho; try lia.
    destruct (model_inputs m) as [|image inputs'] eqn:Ei; cbn in Hi; try lia.
    rewrite (retinanet_bbox_eq fmt m ap nms csf name st md nt kw s
               features regression classification other image inputs'
               Hf Eo Ei Ez Et).
    eauto.
Qed.

Lemma retinanet_bbox_raises_only_on_short_anchor_lists_witness :
  find_outputs example_model pyramid_names =
    Ok (spec_pyramid 21 256 example_C3 example_C4 example_C5) /\
  (2 <= List.length (model_outputs example_model))%nat /\
  (1 <= List.length (model_inputs example_model))%nat /\
  raises_exactly_when_too_short example_no_anchors
    (retinanet_bbox channels_last (Some example_model) example_no_anchors
       true true "retinanet-bbox" (5#100) 300 (1#2) no_kwargs
       example_model_state) /\
  retinanet_bbox channels_last (Some example_model) example_no_anchors
    true true "retinanet-bbox" (5#100) 300 (1#2) no_kwargs
    example_model_state =
  retinanet_bbox channels_last (Some example_model)
    (first_five example_no_anchors)
    true true "retinanet-bbox" (5#100) 300 (1#2) no_kwargs
    example_model_state.
Proof.
  assert (H1 : find_outputs example_model pyramid_names =
               Ok (spec_pyramid 21 256 example_C3 example_C4 example_C5))
    by (vm_compute; reflexivity).
  assert (H2 : (2 <= List.length (model_outputs example_model))%nat)
    by (vm_compute; lia).
  assert (H3 : (1 <= List.length (model_inputs example_model))%nat)
    by (vm_compute; lia).
  repeat (split; [assumption|]).
  exact (retinanet_bbox_raises_only_on_short_anchor_lists channels_last
           example_model example_no_anchors true true "retinanet-bbox"
           (5#100) 300 (1#2) no_kwargs example_model_state _ H1 H2 H3).
Defined.

(* ================================================================== *)
(** ** The assembled model: one level order *)
(* ================================================================== *)

Lemma layer_class_eqb_refl c : layer_class_eqb c c = true.
Proof. unfold layer_class_eqb. now destruct (layer_class_eq_dec c c). Qed.

Lemma tensor_eqb_refl (t : tensor) : tensor_eqb t t = true
with layer_eqb_refl (l : layer) : layer_eqb l l = true.
Proof.
  - destruct t as [l args i]. cbn.
    rewrite layer_eqb_refl, Nat.eqb_refl. cbn. rewrite andb_true_r.
    revert args. fix aux 1. intros [|x r]; [reflexivity|].
    cbn. now rewrite tensor_eqb_refl, aux.
  - destruct l as [u n c|u n i o]; cbn.
    + now rewrite Nat.eqb_refl, String.eqb_refl, layer_class_eqb_refl.
    + rewrite Nat.eqb_refl, String.eqb_refl. cbn.
      assert (H : forall l, list_eqb tensor_eqb l l = true).
      { fix aux 1. intros [|x r]; [reflexivity|].
        cbn. now rewrite tensor_eqb_refl, aux. }
      now rewrite !H.
Qed.

Lemma list_eqb_refl ts : list_eqb tensor_eqb ts ts = true.
Proof.
  induction ts as [|t ts IH]; [reflexivity|].
  cbn. now rewrite tensor_eqb_refl, IH.
Qed.

(** When the model holds a node [t] under the name [p], and every node that
    shares the name or the identity of [t]'s layer is that layer on the same
    operands, the lookup of [p] returns [t]'s first output. *)
Lemma find_output_unique m p t :
  In t (Model_nodes m) ->
  has_name p (producer t) = true ->
  Forall (fun t' =>
            has_name p (producer t') = true \/
            layer_uid (producer t') = layer_uid (producer t) ->
            producer t' = producer t /\ operands t' = operands t)
         (Model_nodes m) ->
  find_output m p = Ok (Out (producer t) (operands t) 0).
Proof.
  intros Hin Hname Hall. rewrite Forall_forall in Hall. unfold find_output.
  destruct (find (has_name p) (Model_layers m)) as [l|] eqn:E.
  - apply find_some in E as [Hl Hn].
    unfold Model_layers in Hl. apply in_map_iff in Hl as (t1 & <- & Hin1).
    destruct (Hall t1 Hin1 (or_introl Hn)) as [-> _].
    assert (Hcalls : forall t', In t' (calls_of m (producer t)) ->
                       producer t' = producer t /\ operands t' = operands t).
    { intros t' Ht'. apply filter_In in Ht' as [Hin' Hu].
      apply Nat.eqb_eq in Hu. auto. }
    destruct (calls_of m (producer t)) as [|t0 others] eqn:Ec.
    + assert (In t (calls_of m (producer t)))
        by (apply filter_In; split; [assumption|apply Nat.eqb_refl]).
      rewrite Ec in *. contradiction.
    + destruct (Hcalls t0 (or_introl eq_refl)) as [-> E0].
      replace (forallb (same_call t0) others) with true; [now rewrite E0|].
      symmetry. apply forallb_forall. intros t' Ht'.
      destruct (Hcalls t' (or_intror Ht')) as [_ E'].
      unfold same_call. rewrite E0, E'. apply list_eqb_refl.
  - pose proof (find_none _ _ E _ (in_map producer _ _ Hin)). congruence.
Qed.

Lemma foreign_node_spec s t :
  foreign_node s t = true ->
  (forall p, In p pyramid_names -> has_name p (producer t) = false) /\
  (layer_uid (producer t) < next_uid s)%nat.
Proof.
  unfold foreign_node. intros H. apply andb_prop in H as [Hn Hu].
  split.
  - intros p Hp. rewrite forallb_forall in Hn. specialize (Hn p Hp).
    now apply negb_true_iff in Hn.
  - now apply Nat.ltb_lt.
Qed.

(** Membership in a list written with [++] and [::]. *)
Ltac find_in :=
  lazymatch goal with
  | |- In _ (_ ++ _) => apply in_or_app; ((left; find_in) + (right; find_in))
  | |- In _ (_ :: _) => (left; reflexivity) + (right; find_in)
  end.

(** The nodes of a foreign backbone map share neither name nor identity
    with a pyramid layer. *)
Ltac foreign_ok Hf :=
  let t' := fresh "t" in
  let Hin := fresh "Hin" in
  let Hn := fresh "Hn" in
  let Hu := fresh "Hu" in
  let Hnames := fresh "Hnames" in
  let Huid := fresh "Huid" in
  apply Forall_forall; intros t' Hin [Hn|Hu];
  apply Hf in Hin; apply foreign_node_spec in Hin as [Hnames Huid];
  [ rewrite Hnames in Hn by (cbn; auto 10); discriminate Hn
  | exfalso; cbn in Hu; lia ].

(** A node written out either is the pyramid layer looked up, or differs
    from it in name and in identity. *)
Ltac node_ok :=
  let Hn := fresh "Hn" in
  let Hu := fresh "Hu" in
  intros [Hn|Hu];
  [ cbn in Hn;
    first [ discriminate Hn
          | split; reflexivity
          | match goal with
            | H : forall p, In p pyramid_names -> String.eqb ?n p = false |- _ =>
                rewrite H in Hn by (cbn; auto 10); discriminate Hn
            end ]
  | first [ exfalso; cbn in Hu; lia | split; reflexivity ] ].

Ltac all_nodes H3 H4 H5 :=
  repeat first
    [ apply Forall_nil
    | apply Forall_cons; [node_ok|]
    | apply Forall_app; split
    | foreign_ok H3 | foreign_ok H4 | foreign_ok H5 ].

Ltac lookup_level p i u fs C3 C4 C5 H3 H4 H5 :=
  rewrite (find_output_unique _ p
             (nth i (spec_pyramid u fs C3 C4 C5) example_image));
  [ | cbn; find_in | reflexivity
    | cbn -[String.eqb has_name]; all_nodes H3 H4 H5 ].

(** In the model that [RetinaNet] assembles over the default pyramid, the
    five lookups of [retinanet_bbox] return the five pyramid levels, in
    order. *)
Lemma spec_base_lookups s0 u name inputs C3 C4 C5 m1 m2 fs :
  foreign s0 C3 = true -> foreign s0 C4 = true -> foreign s0 C5 = true ->
  (next_uid s0 <= u)%nat ->
  (model_uid m1 < u)%nat -> (model_uid m2 < u)%nat ->
  In (model_name m1) ["regression_submodel"; "regr_model"] ->
  In (model_name m2) ["classification_submodel"; "class_model"] ->
  find_outputs
    (mkModel (15 + u) name inputs
       (spec_base_outputs (13 + u) (spec_pyramid u fs C3 C4 C5) m1 m2))
    pyramid_names = Ok (spec_pyramid u fs C3 C4 C5).
Proof.
  intros H3 H4 H5 Hu Hm1 Hm2 Hn1 Hn2.
  destruct m1 as [u1 n1 i1 o1], m2 as [u2 n2 i2 o2]. cbn in Hm1, Hm2, Hn1, Hn2.
  unfold foreign in *. rewrite forallb_forall in H3, H4, H5.
  assert (Hn1' : forall p, In p pyramid_names -> String.eqb n1 p = false).
  { intros p Hp. cbn in Hp. intuition; subst; reflexivity. }
  assert (Hn2' : forall p, In p pyramid_names -> String.eqb n2 p = false).
  { intros p Hp. cbn in Hp. intuition; subst; reflexivity. }
  clear Hn1 Hn2.
  cbn [find_outputs pyramid_names].
  lookup_level "P3" 0%nat u fs C3 C4 C5 H3 H4 H5.
  lookup_level "P4" 1%nat u fs C3 C4 C5 H3 H4 H5.
  lookup_level "P5" 2%nat u fs C3 C4 C5 H3 H4 H5.
  lookup_level "P6" 3%nat u fs C3 C4 C5 H3 H4 H5.
  lookup_level "P7" 4%nat u fs C3 C4 C5 H3 H4 H5.
  reflexivity.
Qed.

Lemma create_pyramid_features_built C3 C4 C5 feature_size s :
  _create_pyramid_features C3 C4 C5 feature_size s =
  Ok (spec_pyramid (next_uid s) feature_size C3 C4 C5, advance 13 s).
Proof. reflexivity. Qed.

Lemma RetinaNet_default_pyramid_built fmt inputs C3 C4 C5 nc na submodels name
    share cfs rfs cmfs coordconv s :
  known_submodels submodels cmfs = true ->
  exists m1 m2 s1,
    RetinaNet fmt inputs [C3; C4; C5] nc na None submodels name share cfs rfs
      cmfs coordconv s =
    Ok (mkModel (15 + next_uid s1) name inputs
          (spec_base_outputs (13 + next_uid s1)
             (spec_pyramid (next_uid s1) 256 C3 C4 C5) m1 m2),
        advance 16 s1) /\
    built_submodels nc na s s1 m1 m2.
Proof.
  intros Hk. unfold RetinaNet. destruct submodels as [sn|]; cbn in Hk.
  - apply andb_prop in Hk as [Hp Hc]. rewrite Hp.
    assert (Hne : cmfs <> []) by (now destruct cmfs).
    destruct (joint_submodels_built nc na 256 cmfs cfs rfs coordconv s Hne)
      as (m1 & m2 & s1 & regr & class & trunk & inp & E & Ho1 & Ho2 & _ & _
          & Hn1 & Hn2 & _ & _ & _ & _ & _ & _ & Ht1 & Ht2 & Hu1 & Hu2 & Hu3 & _).
    exists m1, m2, s1. split.
    + unfold bind at 1. unfold bind at 1. rewrite E. unfold ret at 1.
      unfold bind at 1. rewrite create_pyramid_features_built.
      unfold bind at 1. unfold _build_pyramid. cbn [comprehension fst snd].
      unfold bind at 1. unfold bind at 1. rewrite build_model_pyramid_unfold.
      cbn [call spec_pyramid map List.length Nat.ltb Nat.leb].
      unfold ret at 1. unfold bind at 1. unfold bind at 1.
      rewrite build_model_pyramid_unfold. reflexivity.
    + unfold built_submodels, submodel_tail, network_tail, as_layer.
      rewrite Ho1, Ho2, Hn1, Hn2. cbn -[classification_tail].
      unfold model_tail in Ht1, Ht2. rewrite Ht1, Ht2. repeat split; eauto; lia.
  - destruct (default_submodels_built fmt nc na cfs rfs s)
      as (m1 & m2 & s1 & E & Hn1 & Hn2 & Ht1 & Ht2 & Hu1 & Hu2 & Hu3 & _).
    exists m1, m2, s1. split.
    + unfold bind at 1. unfold bind at 1. rewrite E. unfold ret at 1.
      unfold bind at 1. rewrite create_pyramid_features_built.
      unfold bind at 1. unfold _build_pyramid. cbn [comprehension fst snd].
      unfold bind at 1. unfold bind at 1. rewrite build_model_pyramid_unfold.
      cbn [call spec_pyramid map List.length Nat.ltb Nat.leb].
      unfold ret at 1. unfold bind at 1. unfold bind at 1.
      rewrite build_model_pyramid_unfold. reflexivity.
    + unfold built_submodels, submodel_tail.
      rewrite !network_tail_as_layer, Ht1, Ht2, Hn1, Hn2.
      cbn [In]. repeat split; eauto; lia.
Qed.

Lemma rows_of_submodel_block m f filters k s p a ki bi perm shape act :
  submodel_tail (as_layer m) =
    Some (mkTail (Conv2D filters k s p a ki bi) perm shape act) ->
  rows_per_location (Out (as_layer m) [f] 0) = Some (filters / last shape 1).
Proof.
  intros H. unfold rows_per_location. cbn [producer as_layer].
  change (Network (model_uid m) (model_name m) (model_inputs m) (model_outputs m))
    with (as_layer m).
  now rewrite H.
Qed.



(* ================================================================== *)
(** ** The feature pyramid, as built and as used *)
(* ================================================================== *)

(** C6.  The default pyramid builder returns, for every three backbone
    maps and every [feature_size], exactly the five maps [P3..P7] of the
    top-down pattern of section 4.2 (1x1 reductions, upsampling to match,
    elementwise additions, 3x3 refinements; [P6] a 3x3 stride-2 convolution
    on [C5]; [P7] ReLU then a 3x3 stride-2 convolution on [P6]), each
    produced by a convolution with [feature_size] channels, under the layer
    names [P3..P7]; it makes 13 layers and nothing else.  [RetinaNet], left
    without a pyramid builder, calls it with 256 channels. *)
Theorem default_pyramid_is_the_specified_pyramid :
  (forall C3 C4 C5 feature_size s,
     _create_pyramid_features C3 C4 C5 feature_size s =
       Ok (spec_pyramid (next_uid s) feature_size C3 C4 C5, advance 13 s) /\
     List.length (spec_pyramid (next_uid s) feature_size C3 C4 C5) = 5%nat /\
     map layer_name
         (map producer (spec_pyramid (next_uid s) feature_size C3 C4 C5))
       = pyramid_names /\
     Forall (fun P => channels P = Some feature_size)
       (spec_pyramid (next_uid s) feature_size C3 C4 C5)) /\
  (forall fmt inputs C3 C4 C5 num_classes num_anchors submodels name share_rpn
          class_feature_sizes regr_feature_sizes common_feature_sizes
          coordconv s,
     known_submodels submodels common_feature_sizes = true ->
     pyramid_of_256_channels
       (RetinaNet fmt inputs [C3; C4; C5] num_classes num_anchors None
          submodels name share_rpn class_feature_sizes regr_feature_sizes
          common_feature_sizes coordconv s)).
Proof.
  split.
  - intros. split; [reflexivity|]. split; [reflexivity|]. split; [reflexivity|].
    unfold spec_pyramid. repeat constructor.
  - intros fmt inputs C3 C4 C5 nc na submodels name share cfs rfs cmfs
           coordconv s Hk.
    destruct (RetinaNet_default_pyramid_built fmt inputs C3 C4 C5 nc na
                submodels name share cfs rfs cmfs coordconv s Hk)
      as (m1 & m2 & s1 & E & _).
    unfold pyramid_of_256_channels. do 2 eexists. split; [exact E|].
    cbn [model_outputs spec_base_outputs]. repeat constructor.
Qed.

Lemma default_pyramid_is_the_specified_pyramid_witness :
  known_submodels None (times 256 4) = true /\
  pyramid_of_256_channels (example_RetinaNet None).
Proof.
  split; [reflexivity|].
  apply (proj2 default_pyramid_is_the_specified_pyramid). reflexivity.
Defined.
